(** * Bebop swap orchestration: a shallow embedding of [swapTokenBebop]

    The development follows the swap script (the file that exports
    [swapTokenBebop]): input validation, wallet lookup, the optional approval
    step, the quote request and the settlement submission.  Remote
    collaborators (custody service, quote venue) are a [World] of functions;
    every call the script makes to them is recorded in a trace, so that
    statements such as "before any network call" or "the submitter is never
    invoked" become statements about that trace.  Console output is not
    modelled. *)

From Stdlib Require Import ZArith Ascii String DecimalString Lia.
From Stdlib Require Import DecimalZ DecimalPos.
From stdpp Require Import base gmap strings list sorting.

Open Scope Z_scope.

(** ** JavaScript values as the script uses them *)

Module Js.

(** [!s] is false exactly for a defined, non-empty string. *)
Definition truthy_str (o : option string) : bool :=
  match o with
  | Some s => negb (String.eqb s EmptyString)
  | None => false
  end.

(** [!n] is false exactly for a defined, non-zero number (chain identifiers
    are integers; NaN is outside the model). *)
Definition truthy_num (o : option Z) : bool :=
  match o with
  | Some n => negb (n =? 0)
  | None => false
  end.

(** [a || d] where [d] is a string literal. *)
Definition or_default (a : option string) (d : string) : string :=
  match a with
  | Some s => if truthy_str a then s else d
  | None => d
  end.

(** A parameter default [x = d] replaces only [undefined]. *)
Definition param_default (d : bool) (o : option bool) : bool :=
  match o with Some b => b | None => d end.

(** [toString] of a BigInt, and [`${n}`] for an integer number of magnitude
    below 2^53 (beyond that not every integer is a number, and from 10^21 on
    a number is printed with an exponent): plain decimal digits with a
    leading minus sign for negative values. *)
Definition string_of_Z (z : Z) : string :=
  NilZero.string_of_int (Z.to_int z).

End Js.

(** ** The part of ethers the script relies on *)

Module Ethers.

Definition is_digit (c : ascii) : bool :=
  let n := Z.of_N (N_of_ascii c) in (48 <=? n) && (n <=? 57).

Definition digit_of (c : ascii) : Z := Z.of_N (N_of_ascii c) - 48.

(** Longest prefix of decimal digits, and what follows it. *)
Fixpoint span_digits (s : string) : string * string :=
  match s with
  | String c r =>
      if is_digit c
      then let '(d, rest) := span_digits r in (String c d, rest)
      else (EmptyString, s)
  | EmptyString => (EmptyString, EmptyString)
  end.

(** Drops one leading character [c] when there is one. *)
Definition skip_char (c : ascii) (s : string) : bool * string :=
  match s with
  | String c' r => if Ascii.eqb c c' then (true, r) else (false, s)
  | EmptyString => (false, s)
  end.

(** Value of a string of decimal digits read after the prefix worth [acc]. *)
Fixpoint digits_value (acc : Z) (s : string) : Z :=
  match s with
  | String c r => digits_value (10 * acc + digit_of c) r
  | EmptyString => acc
  end.

Fixpoint all_digits (s : string) : bool :=
  match s with
  | String c r => is_digit c && all_digits r
  | EmptyString => true
  end.

Fixpoint all_zeros (s : string) : bool :=
  match s with
  | String c r => Ascii.eqb c "0"%char && all_zeros r
  | EmptyString => true
  end.

Fixpoint zeros (n : nat) : string :=
  match n with
  | O => EmptyString
  | S k => String "0"%char (zeros k)
  end.

Fixpoint take_str (n : nat) (s : string) : string :=
  match n, s with
  | S k, String c r => String c (take_str k r)
  | _, _ => EmptyString
  end.

Fixpoint drop_str (n : nat) (s : string) : string :=
  match n, s with
  | S k, String _ r => drop_str k r
  | _, _ => s
  end.

(** Modelled from the spec: [ethers.parseUnits] is library code outside the
    repository; the spec says the amount is "converted to the smallest unit
    assuming 18 fractional digits".  The definition follows the library's
    documented behaviour for a decimal string: an optional sign, digits, an
    optional point, digits (at least one digit overall); the fraction is
    padded with zeros to [decimals] places, digits beyond that must all be
    zero, and the result must fit a signed 512-bit fixed-point number. *)
Definition parseUnits (value : string) (decimals : nat) : option Z :=
  let '(negative, s1) := skip_char "-"%char value in
  let '(whole, s2) := span_digits s1 in
  let '(_, s3) := skip_char "."%char s2 in
  let '(decimal, s4) := span_digits s3 in
  if negb (String.eqb s4 EmptyString) then None
  else if (String.length whole + String.length decimal =? 0)%nat then None
  else
    let padded := decimal +:+ zeros (decimals - String.length decimal) in
    if negb (all_zeros (drop_str decimals padded)) then None
    else
      let magnitude := digits_value 0 (whole +:+ take_str decimals padded) in
      let v := if negative then - magnitude else magnitude in
      if (- 2 ^ 511 <=? v) && (v <? 2 ^ 511) then Some v else None.

(** [ethers.parseEther(s)] is [parseUnits(s, 18)]. *)
Definition parseEther (value : string) : option Z := parseUnits value 18.

(** [ethers.MaxUint256]. *)
Definition MaxUint256 : Z := 2 ^ 256 - 1.

Definition hex_digit (d : Z) : ascii :=
  ascii_of_N (Z.to_N (if d <? 10 then 48 + d else 87 + d)).

(** The [n] low hexadecimal digits of [v], most significant first. *)
Fixpoint hex_word (n : nat) (v : Z) : string :=
  match n with
  | O => EmptyString
  | S k => hex_word k (v / 16) +:+ String (hex_digit (v mod 16)) EmptyString
  end.

Definition lower (c : ascii) : ascii :=
  let n := Z.of_N (N_of_ascii c) in
  if (65 <=? n) && (n <=? 90) then ascii_of_N (Z.to_N (n + 32)) else c.

Fixpoint lower_str (s : string) : string :=
  match s with
  | String c r => String (lower c) (lower_str r)
  | EmptyString => EmptyString
  end.

(** Modelled from the spec: [ethers.Interface.encodeFunctionData] is library
    code outside the repository; the spec speaks of an approval
    "requesting an unlimited allowance (maximum representable integer)".
    For [approve(address,uint256)] the call data is the selector followed
    by the spender and the amount, each as a 32-byte word. *)
Definition encodeApprove (spender : string) (amount : Z) : string :=
  "0x095ea7b3" +:+ zeros 24 +:+ lower_str (drop_str 2 spender)
    +:+ hex_word 64 amount.

End Ethers.

(** ** Data exchanged with the collaborators *)

(** The object destructured by [swapTokenBebop]; [None] is [undefined]. *)
Record SwapRequest := {
  walletId : option string;
  fromToken : option string;
  toToken : option string;
  amount : option string;
  fromChain : option Z;
  toChain : option Z;
  gasless : option bool;
  skipApproval : option bool
}.

(** What [client.wallets().get] resolves to. *)
Record Wallet := { address : option string }.

(** Query parameters of the quote request. *)
Record QuoteParams := {
  buy_tokens : string;
  sell_tokens : string;
  sell_amounts : string;
  taker_address : option string;
  qp_gasless : bool;
  approval_type : string
}.

(** [response.data.tx] of the venue. *)
Record RawTx := {
  raw_to : option string;
  raw_data : option string;
  raw_value : option string;
  raw_buyAmount : option string
}.

(** [response.data] of the venue; [resp_sellAmount] is a field the venue may
    send and the script never reads. *)
Record QuoteData := {
  error : option string;
  tx : option RawTx;
  resp_buyAmount : option string;
  resp_sellAmount : option string
}.

(** The object returned by [getBebopQuote]. *)
Record Quote := {
  q_tx : option RawTx;
  q_sellAmount : string;
  q_buyAmount : option string
}.

(** [params.transaction] of a custody call. *)
Record TxPayload := {
  tx_to : option string;
  tx_data : option string;
  tx_value : string
}.

(** The argument of [client.walletApi.rpc]; [sponsor] is the optional
    sponsorship flag of the custody interface. *)
Record RpcRequest := {
  rpc_walletId : string;
  caip2 : string;
  method : string;
  transaction : TxPayload;
  sponsor : option bool
}.

(** [result.data] of a custody call. *)
Record RpcData := { hash : option string; echo_caip2 : option string }.

Record QuoteSummary := {
  qs_fromToken : string;
  qs_toToken : string;
  sellAmount : string;
  buyAmount : option string
}.

(** The object [swapTokenBebop] resolves to. *)
Record SwapResult := {
  success : bool;
  transactionHash : option string;
  quote : QuoteSummary
}.

(** ** Errors: one constructor per place where the script can throw *)

Inductive Service := Custody | Venue.

Inductive SwapError :=
| WalletIdRequired
| FromTokenRequired
| ToTokenRequired
| AmountRequired
| FromChainRequired
| SameChainOnly
| InvalidFromToken (a : string)
| InvalidToToken (a : string)
| UnsupportedChain (chainId : Z)
| BebopQuoteError (payload : string)
| InvalidAmount (a : string)
| UndefinedAccess (what : string)
| Rejected (by_whom : Service) (reason : string).

Inductive outcome (A : Type) :=
| Ok (a : A)
| Throw (e : SwapError).
Arguments Ok {A} a.
Arguments Throw {A} e.

(** ** The outside world and the calls made to it *)

(** A rejected promise of a collaborator is a [Throw (Rejected _ _)] (the
    venue's client rejects on a non-success HTTP status). *)
Record World := {
  env : string -> option string;
  wallets_get : string -> outcome Wallet;
  axios_get : string -> QuoteParams -> outcome QuoteData;
  walletApi_rpc : RpcRequest -> outcome RpcData
}.

Inductive Effect :=
| WalletsGet (id : string)
| HttpGet (url : string) (params : QuoteParams)
| WalletRpc (req : RpcRequest)
| Sleep (ms : Z).

(** Every effect but the timer is a network call. *)
Definition is_network_call (e : Effect) : bool :=
  match e with
  | Sleep _ => false
  | _ => true
  end.

(** ** Computations: a trace of effects and a result or a thrown error *)

Definition M (A : Type) : Type := list Effect * outcome A.

Definition ret {A} (a : A) : M A := ([], Ok a).

Definition throw {A} (e : SwapError) : M A := ([], Throw e).

Definition bind {A B} (m : M A) (k : A -> M B) : M B :=
  match m with
  | (t, Ok a) => let '(t', r) := k a in (t ++ t', r)
  | (t, Throw e) => (t, Throw e)
  end.

Definition perform {A} (e : Effect) (r : outcome A) : M A := ([e], r).

Declare Scope swap_scope.
Delimit Scope swap_scope with swap.
Notation "x <- m ;; k" := (bind m (fun x => k))
  (at level 100, m at next level, right associativity) : swap_scope.
Notation "m ;;; k" := (bind m (fun _ => k))
  (at level 100, right associativity) : swap_scope.
Open Scope swap_scope.

Definition trace {A} (m : M A) : list Effect := fst m.
Definition result {A} (m : M A) : outcome A := snd m.

(** [if (!x) throw new Error(...)] for a string and for a number; the value
    is known to be defined afterwards. *)
Definition require_str (o : option string) (e : SwapError) : M string :=
  match o with
  | Some s => if Js.truthy_str o then ret s else throw e
  | None => throw e
  end.

Definition require_num (o : option Z) (e : SwapError) : M Z :=
  match o with
  | Some n => if Js.truthy_num o then ret n else throw e
  | None => throw e
  end.

Definition when_throw (b : bool) (e : SwapError) : M unit :=
  if b then throw e else ret tt.

(** ** The script *)

(** [getCAIP2]: the chain identifier in namespace:reference form.  The
    definition is the script's for integer identifiers of magnitude below
    2^53, which JavaScript prints in plain decimal. *)
Definition getCAIP2 (chainId : Z) : string :=
  "eip155:" +:+ Js.string_of_Z chainId.

(** The table [chains] of [getChainName]. *)
Definition chains : gmap Z string :=
  <[1 := "ethereum"]> (<[8453 := "base"]> (<[137 := "polygon"]>
  (<[42161 := "arbitrum"]> (<[10 := "optimism"]>
  (<[11155111 := "sepolia"]> ∅))))).

(** [Object.keys] of an object with integer keys: ascending order. *)
Definition object_keys (m : gmap Z string) : list Z :=
  merge_sort Z.le (map fst (map_to_list m)).

(** [getChainName]: the venue's network name of a chain. *)
Definition getChainName (chainId : Z) : outcome string :=
  let name := chains !! chainId in
  match name with
  | Some n => if negb (Js.truthy_str name)
              then Throw (UnsupportedChain chainId) else Ok n
  | None => Throw (UnsupportedChain chainId)
  end.

Definition BEBOP_SETTLEMENT : string :=
  "0xbbbbbBB520d69a9775E85b458C58c648259FAD5F".

(** [getWalletAddress]: one custody lookup. *)
Definition getWalletAddress (w : World) (walletId : string) (chainId : Z)
  : M Wallet :=
  let caip2 := getCAIP2 chainId in
  wallet <- perform (WalletsGet walletId) (wallets_get w walletId);;
  ret {| address := address wallet |}.

(** [ensureTokenApproval]: an [approve] of [MaxUint256] for the settlement
    contract, sent to the token, then a pause of three seconds. *)
Definition ensureTokenApproval (w : World)
    (walletId tokenAddress amount : string) (chainId : Z)
    (walletAddress : option string) : M (option string) :=
  let data := Ethers.encodeApprove BEBOP_SETTLEMENT Ethers.MaxUint256 in
  let caip2 := getCAIP2 chainId in
  let req := {| rpc_walletId := walletId;
                caip2 := caip2;
                method := "eth_sendTransaction";
                transaction := {| tx_to := Some tokenAddress;
                                  tx_data := Some data;
                                  tx_value := "0x0" |};
                sponsor := None |} in
  result <- perform (WalletRpc req) (walletApi_rpc w req);;
  perform (Sleep 3000) (Ok tt);;;
  ret (hash result).

(** [getBebopQuote]: chain name, amount in wei, one GET, then the reply is
    inspected. *)
Definition getBebopQuote (w : World) (walletAddress : option string)
    (fromToken toToken amount : string) (chainId : Z) (gasless : bool)
    (authKey sourceId : string) : M Quote :=
  chainName <- ([], getChainName chainId);;
  let url := "https://api.bebop.xyz/pmm/" +:+ chainName +:+ "/v3/quote" in
  amountWei <- match Ethers.parseEther amount with
               | Some v => ret (Js.string_of_Z v)
               | None => throw (InvalidAmount amount)
               end;;
  let params := {| buy_tokens := toToken;
                   sell_tokens := fromToken;
                   sell_amounts := amountWei;
                   taker_address := walletAddress;
                   qp_gasless := gasless;
                   approval_type := "Standard" |} in
  data <- perform (HttpGet url params) (axios_get w url params);;
  when_throw (Js.truthy_str (error data))
             (BebopQuoteError (Js.or_default (error data) EmptyString));;;
  buyAmount <- (if Js.truthy_str (resp_buyAmount data)
                then ret (resp_buyAmount data)
                else match tx data with
                     | Some t => ret (raw_buyAmount t)
                     | None => throw (UndefinedAccess "response.data.tx")
                     end);;
  ret {| q_tx := tx data;
         q_sellAmount := amountWei;
         q_buyAmount := buyAmount |}.

(** [executeSwap]: the prepared transaction goes to the custody service. *)
Definition executeSwap (w : World) (walletId : string)
    (rawTransaction : option RawTx) (chainId : Z) : M (option string) :=
  let caip2 := getCAIP2 chainId in
  match rawTransaction with
  | None => throw (UndefinedAccess "rawTransaction")
  | Some rt =>
      let req := {| rpc_walletId := walletId;
                    caip2 := caip2;
                    method := "eth_sendTransaction";
                    transaction :=
                      {| tx_to := raw_to rt;
                         tx_data := raw_data rt;
                         tx_value := Js.or_default (raw_value rt) "0x0" |};
                    sponsor := None |} in
      result <- perform (WalletRpc req) (walletApi_rpc w req);;
      ret (hash result)
  end.

Section Orchestrator.

(** [ethers.isAddress]: the well-formedness check of an account address
    (library code outside the repository; its checksum needs a hash
    function, so it stays a parameter). *)
Variable isAddress : string -> bool.

(** [swapTokenBebop].  The call of [ensureTokenApproval] in step 2 is
    commented out in the script: both branches of the test on
    [skipApproval] only log. *)
Definition swapTokenBebop (w : World) (r : SwapRequest) : M SwapResult :=
  let gasless := Js.param_default false (gasless r) in
  let skipApproval := Js.param_default false (skipApproval r) in
  walletId <- require_str (walletId r) WalletIdRequired;;
  fromToken <- require_str (fromToken r) FromTokenRequired;;
  toToken <- require_str (toToken r) ToTokenRequired;;
  amount <- require_str (amount r) AmountRequired;;
  fromChain <- require_num (fromChain r) FromChainRequired;;
  when_throw (Js.truthy_num (toChain r)
              && negb (bool_decide (toChain r = Some fromChain)))
             SameChainOnly;;;
  when_throw (negb (isAddress fromToken)) (InvalidFromToken fromToken);;;
  when_throw (negb (isAddress toToken)) (InvalidToToken toToken);;;
  let BEBOP_AUTH_KEY :=
    Js.or_default (env w "BEBOP_AUTH_KEY") "bebop-auth-key" in
  let BEBOP_SOURCE_ID :=
    Js.or_default (env w "BEBOP_SOURCE_ID") "privy-integration" in
  walletInfo <- getWalletAddress w walletId fromChain;;
  (if negb skipApproval then ret tt else ret tt);;;
  quote <- getBebopQuote w (address walletInfo) fromToken toToken amount
             fromChain gasless BEBOP_AUTH_KEY BEBOP_SOURCE_ID;;
  txHash <- executeSwap w walletId (q_tx quote) fromChain;;
  ret {| success := true;
         transactionHash := txHash;
         quote := {| qs_fromToken := fromToken;
                     qs_toToken := toToken;
                     sellAmount := q_sellAmount quote;
                     buyAmount := q_buyAmount quote |} |}.

End Orchestrator.

(** ** Messages and kinds of errors *)

Fixpoint join (sep : string) (l : list string) : string :=
  match l with
  | [] => EmptyString
  | [x] => x
  | x :: rest => x +:+ sep +:+ join sep rest
  end.

(** The text of the [Error] thrown at each [throw] of the script.  The texts
    of the errors raised by [parseEther] and by the engine on a property
    access are produced outside the repository and are not modelled. *)
Definition message (e : SwapError) : option string :=
  match e with
  | WalletIdRequired => Some "walletId is required"
  | FromTokenRequired => Some "fromToken address is required"
  | ToTokenRequired => Some "toToken address is required"
  | AmountRequired => Some "amount is required"
  | FromChainRequired => Some "fromChain ID is required"
  | SameChainOnly =>
      Some "Bebop only supports same-chain swaps. fromChain must equal toChain."
  | InvalidFromToken a => Some ("Invalid fromToken address: " +:+ a)
  | InvalidToToken a => Some ("Invalid toToken address: " +:+ a)
  | UnsupportedChain id =>
      Some ("Unsupported chain ID: " +:+ Js.string_of_Z id +:+ ". Supported: "
            +:+ join ", " (map Js.string_of_Z (object_keys chains)))
  | BebopQuoteError p => Some ("Bebop quote error: " +:+ p)
  | InvalidAmount _ => None
  | UndefinedAccess _ => None
  | Rejected _ reason => Some reason
  end.

(** The checks made before the first collaborator is contacted: presence of
    the five required fields, same-chain, and address well-formedness. *)
Definition is_validation_error (e : SwapError) : bool :=
  match e with
  | WalletIdRequired | FromTokenRequired | ToTokenRequired
  | AmountRequired | FromChainRequired | SameChainOnly
  | InvalidFromToken _ | InvalidToToken _ => true
  | _ => false
  end.

(** Calls to the custody service's submit operation found in a trace. *)
Fixpoint rpc_calls (t : list Effect) : list RpcRequest :=
  match t with
  | [] => []
  | WalletRpc req :: rest => req :: rpc_calls rest
  | _ :: rest => rpc_calls rest
  end.

(** Quote requests found in a trace. *)
Fixpoint quote_calls (t : list Effect) : list (string * QuoteParams) :=
  match t with
  | [] => []
  | HttpGet url p :: rest => (url, p) :: quote_calls rest
  | _ :: rest => quote_calls rest
  end.

(** ** Requests that differ in one flag *)

Definition with_skipApproval (b : option bool) (r : SwapRequest)
  : SwapRequest :=
  {| walletId := walletId r; fromToken := fromToken r; toToken := toToken r;
     amount := amount r; fromChain := fromChain r; toChain := toChain r;
     gasless := gasless r; skipApproval := b |}.

Definition with_gasless (b : option bool) (r : SwapRequest) : SwapRequest :=
  {| walletId := walletId r; fromToken := fromToken r; toToken := toToken r;
     amount := amount r; fromChain := fromChain r; toChain := toChain r;
     gasless := b; skipApproval := skipApproval r |}.

Definition with_qp_gasless (b : bool) (p : QuoteParams) : QuoteParams :=
  {| buy_tokens := buy_tokens p; sell_tokens := sell_tokens p;
     sell_amounts := sell_amounts p; taker_address := taker_address p;
     qp_gasless := b; approval_type := approval_type p |}.

(** The five fields whose absence is rejected first. *)
Definition required_present (r : SwapRequest) : bool :=
  Js.truthy_str (walletId r) && Js.truthy_str (fromToken r)
  && Js.truthy_str (toToken r) && Js.truthy_str (amount r)
  && Js.truthy_num (fromChain r).

(** A token address that is given and fails the well-formedness check. *)
Definition malformed (isAddress : string -> bool) (o : option string) : bool :=
  match o with
  | Some a => negb (isAddress a)
  | None => false
  end.

Definition supported_chains : list Z := [1; 8453; 137; 42161; 10; 11155111].

(** ** A test double for the end-to-end scenario *)

Module Scenario.

Definition WETH : string := "0x4200000000000000000000000000000000000006".
Definition USDC : string := "0x833589fCD6eDb6E08f4c7C32D4f71b54bdA02913".

Definition is_hex (c : ascii) : bool :=
  let n := Z.of_N (N_of_ascii c) in
  ((48 <=? n) && (n <=? 57)) || ((65 <=? n) && (n <=? 70))
  || ((97 <=? n) && (n <=? 102)).

Fixpoint all_hex (s : string) : bool :=
  match s with
  | String c r => is_hex c && all_hex r
  | EmptyString => true
  end.

(** The shape an account address has: [0x] and forty hexadecimal digits.
    It stands for [ethers.isAddress] in the examples (both scenario tokens
    are genuine addresses). *)
Definition address_shape (s : string) : bool :=
  String.eqb (Ethers.take_str 2 s) "0x" && (String.length s =? 42)%nat
  && all_hex (Ethers.drop_str 2 s).

Definition stub : RawTx :=
  {| raw_to := Some BEBOP_SETTLEMENT; raw_data := Some "0x4dcebcba";
     raw_value := None; raw_buyAmount := None |}.

Definition taker : string := "0x1111111111111111111111111111111111111111".

(** Quote service returning a sell amount and a transaction stub, custody
    service returning the hash [0xabc]. *)
Definition mock : World :=
  {| env := fun _ => None;
     wallets_get := fun _ => Ok {| address := Some taker |};
     axios_get := fun _ _ =>
       Ok {| error := None; tx := Some stub;
             resp_buyAmount := Some "2500000000";
             resp_sellAmount := Some "1000000000000000000" |};
     walletApi_rpc := fun _ =>
       Ok {| hash := Some "0xabc"; echo_caip2 := Some "eip155:8453" |} |}.

(** A quote service that answers with an error payload. *)
Definition mock_quote_error : World :=
  {| env := env mock;
     wallets_get := wallets_get mock;
     axios_get := fun _ _ =>
       Ok {| error := Some "InsufficientLiquidity"; tx := None;
             resp_buyAmount := None; resp_sellAmount := None |};
     walletApi_rpc := walletApi_rpc mock |}.

(** The same services, the venue reporting another sell amount. *)
Definition mock_other_sell_amount : World :=
  {| env := env mock;
     wallets_get := wallets_get mock;
     axios_get := fun _ _ =>
       Ok {| error := None; tx := Some stub;
             resp_buyAmount := Some "2500000000";
             resp_sellAmount := Some "999" |};
     walletApi_rpc := walletApi_rpc mock |}.

Definition request : SwapRequest :=
  {| walletId := Some "w1"; fromToken := Some WETH; toToken := Some USDC;
     amount := Some "1"; fromChain := Some 8453; toChain := None;
     gasless := Some false; skipApproval := Some true |}.

Definition settlement : RpcRequest :=
  {| rpc_walletId := "w1"; caip2 := "eip155:8453";
     method := "eth_sendTransaction";
     transaction := {| tx_to := Some BEBOP_SETTLEMENT;
                       tx_data := Some "0x4dcebcba";
                       tx_value := "0x0" |};
     sponsor := None |}.

Definition quote_params (amountWei : string) (g : bool) : QuoteParams :=
  {| buy_tokens := USDC; sell_tokens := WETH; sell_amounts := amountWei;
     taker_address := Some taker; qp_gasless := g;
     approval_type := "Standard" |}.

(** Selling 1.5 of a token that has six decimals on chain. *)
Definition sell_usdc : SwapRequest :=
  {| walletId := Some "w1"; fromToken := Some USDC; toToken := Some WETH;
     amount := Some "1.5"; fromChain := Some 8453; toChain := Some 8453;
     gasless := None; skipApproval := Some true |}.

(** The approval that [ensureTokenApproval] would submit for WETH. *)
Definition approval : RpcRequest :=
  {| rpc_walletId := "w1"; caip2 := "eip155:8453";
     method := "eth_sendTransaction";
     transaction :=
       {| tx_to := Some WETH;
          tx_data := Some ("0x095ea7b3"
            +:+ "000000000000000000000000bbbbbbb520d69a9775e85b458c58c648259fad5f"
            +:+ "ffffffffffffffffffffffffffffffffffffffffffffffffffffffffffffffff");
          tx_value := "0x0" |};
     sponsor := None |}.

(** Cross-chain request without wallet identifier. *)
Definition cross_chain_no_wallet : SwapRequest :=
  {| walletId := None; fromToken := Some WETH; toToken := Some USDC;
     amount := Some "1"; fromChain := Some 8453; toChain := Some 1;
     gasless := None; skipApproval := None |}.

(** Destination chain given as the number zero. *)
Definition cross_chain_zero : SwapRequest :=
  {| walletId := Some "w1"; fromToken := Some WETH; toToken := Some USDC;
     amount := Some "1"; fromChain := Some 8453; toChain := Some 0;
     gasless := None; skipApproval := Some true |}.

(** A well-formed cross-chain request. *)
Definition cross_chain : SwapRequest :=
  {| walletId := Some "w1"; fromToken := Some WETH; toToken := Some USDC;
     amount := Some "1"; fromChain := Some 8453; toChain := Some 1;
     gasless := None; skipApproval := None |}.

(** A sell token that is too short to be an address. *)
Definition short_token : SwapRequest :=
  {| walletId := Some "w1"; fromToken := Some "0x4200"; toToken := Some USDC;
     amount := Some "1"; fromChain := Some 8453; toChain := None;
     gasless := None; skipApproval := None |}.

End Scenario.

(** ** Normal forms used in the proofs *)

(** The string a field holds once its presence check has passed. *)
Abbreviation str_of o := (Js.or_default o EmptyString) (only parsing).

Definition quote_url (chainName : string) : string :=
  "https://api.bebop.xyz/pmm/" +:+ chainName +:+ "/v3/quote".

Definition quote_params (walletAddress : option string)
    (fromToken toToken amountWei : string) (gasless : bool) : QuoteParams :=
  {| buy_tokens := toToken; sell_tokens := fromToken;
     sell_amounts := amountWei; taker_address := walletAddress;
     qp_gasless := gasless; approval_type := "Standard" |}.

Definition settlement_request (walletId : string) (rt : RawTx) (chainId : Z)
  : RpcRequest :=
  {| rpc_walletId := walletId; caip2 := getCAIP2 chainId;
     method := "eth_sendTransaction";
     transaction := {| tx_to := raw_to rt; tx_data := raw_data rt;
                       tx_value := Js.or_default (raw_value rt) "0x0" |};
     sponsor := None |}.

(** The buy amount [getBebopQuote] reads from a reply without error payload;
    the outer [None] is the failed property access on a missing [tx]. *)
Definition reply_buyAmount (d : QuoteData) : option (option string) :=
  if Js.truthy_str (resp_buyAmount d) then Some (resp_buyAmount d)
  else match tx d with
       | Some t => Some (raw_buyAmount t)
       | None => None
       end.

(** The stages of [swapTokenBebop] that follow validation, on the validated
    values. *)
Definition pipeline (w : World) (walletId fromToken toToken amount : string)
    (fromChain : Z) (gasless : bool) : M SwapResult :=
  walletInfo <- getWalletAddress w walletId fromChain;;
  quote <- getBebopQuote w (address walletInfo) fromToken toToken amount
             fromChain gasless
             (Js.or_default (env w "BEBOP_AUTH_KEY") "bebop-auth-key")
             (Js.or_default (env w "BEBOP_SOURCE_ID") "privy-integration");;
  txHash <- executeSwap w walletId (q_tx quote) fromChain;;
  ret {| success := true;
         transactionHash := txHash;
         quote := {| qs_fromToken := fromToken; qs_toToken := toToken;
                     sellAmount := q_sellAmount quote;
                     buyAmount := q_buyAmount quote |} |}.

(** The checks of [swapTokenBebop] in the order the script makes them: the
    error of the first failing one. *)
Definition first_rejection (isAddress : string -> bool) (r : SwapRequest)
  : option SwapError :=
  if negb (Js.truthy_str (walletId r)) then Some WalletIdRequired
  else if negb (Js.truthy_str (fromToken r)) then Some FromTokenRequired
  else if negb (Js.truthy_str (toToken r)) then Some ToTokenRequired
  else if negb (Js.truthy_str (amount r)) then Some AmountRequired
  else if negb (Js.truthy_num (fromChain r)) then Some FromChainRequired
  else if Js.truthy_num (toChain r)
          && negb (bool_decide (toChain r = fromChain r))
       then Some SameChainOnly
  else if malformed isAddress (fromToken r)
       then Some (InvalidFromToken (str_of (fromToken r)))
  else if malformed isAddress (toToken r)
       then Some (InvalidToToken (str_of (toToken r)))
  else None.

Definition chain_of (o : option Z) : Z :=
  match o with Some n => n | None => 0 end.

(** ** Values of the scenario runs *)

Module Instances.
Import Scenario.

Definition base_url : string := "https://api.bebop.xyz/pmm/base/v3/quote".

Definition usdc_params : QuoteParams :=
  {| buy_tokens := WETH; sell_tokens := USDC;
     sell_amounts := "1500000000000000000";
     taker_address := Some taker; qp_gasless := false;
     approval_type := "Standard" |}.

Definition error_reply : QuoteData :=
  {| error := Some "InsufficientLiquidity"; tx := None;
     resp_buyAmount := None; resp_sellAmount := None |}.

Definition good_reply : QuoteData :=
  {| error := None; tx := Some stub; resp_buyAmount := Some "2500000000";
     resp_sellAmount := Some "1000000000000000000" |}.

Definition scenario_trace : list Effect :=
  [WalletsGet "w1"; HttpGet base_url (quote_params "1000000000000000000" false);
   WalletRpc settlement].

Definition scenario_result : SwapResult :=
  {| success := true;
     transactionHash := Some "0xabc";
     quote := {| qs_fromToken := WETH; qs_toToken := USDC;
                 sellAmount := "1000000000000000000";
                 buyAmount := Some "2500000000" |} |}.

End Instances.

(** ** The rest of the swap script: explorer links and the command line *)

(** [x + y] where [y] may be [undefined]. *)
Definition js_to_string (o : option string) : string :=
  match o with
  | Some s => s
  | None => "undefined"
  end.

(** The table [explorers] of [getExplorerUrl]. *)
Definition explorers : gmap Z string :=
  <[1 := "https://etherscan.io/tx/"]>
  (<[8453 := "https://basescan.org/tx/"]>
  (<[137 := "https://polygonscan.com/tx/"]>
  (<[42161 := "https://arbiscan.io/tx/"]>
  (<[10 := "https://optimistic.etherscan.io/tx/"]>
  (<[11155111 := "https://sepolia.etherscan.io/tx/"]> ∅))))).

(** [getExplorerUrl]: the table entry, or the Ethereum explorer when there is
    none, followed by the hash. *)
Definition getExplorerUrl (chainId : Z) (txHash : option string) : string :=
  Js.or_default (explorers !! chainId) "https://etherscan.io/tx/"
    +:+ js_to_string txHash.

(** [process.argv.includes(flag)]. *)
Definition argv_includes (flag : string) (argv : list string) : bool :=
  existsb (String.eqb flag) argv.

Section CommandLine.

(** [ethers.isAddress] and the global [parseInt] ([None] is [NaN]); the
    latter reads a prefix of its argument in a radix it picks itself, which
    is left to the caller of this model. *)
Variable isAddress : string -> bool.
Variable parseInt : option string -> option Z.

(** [parseInt(process.argv[5]) || 8453]. *)
Definition cli_chainId (argv : list string) : Z :=
  match parseInt (argv !! 5%nat) with
  | Some n => if n =? 0 then 8453 else n
  | None => 8453
  end.

(** The request the command line builds from its arguments. *)
Definition cli_request (w : World) (argv : list string) : SwapRequest :=
  {| walletId := env w "WALLET_ID";
     fromToken := argv !! 2%nat;
     toToken := argv !! 3%nat;
     amount := argv !! 4%nat;
     fromChain := Some (cli_chainId argv);
     toChain := Some (cli_chainId argv);
     gasless := Some (argv_includes "--gasless" argv);
     skipApproval := Some (argv_includes "--skip-approval" argv) |}.

(** The block run when the script is the program's entry point: the calls
    made and the exit code of the process. *)
Definition cli_main (w : World) (argv : list string) : list Effect * Z :=
  let r := cli_request w argv in
  if negb (Js.truthy_str (walletId r)) then ([], 1)
  else if negb (Js.truthy_str (fromToken r))
          || negb (Js.truthy_str (toToken r))
          || negb (Js.truthy_str (amount r))
       then ([], 1)
  else match swapTokenBebop isAddress w r with
       | (t, Ok _) => (t, 0)
       | (t, Throw _) => (t, 1)
       end.

End CommandLine.

(** A request accepted by every check of the validation block. *)
Definition valid_request (isAddress : string -> bool) (r : SwapRequest) : bool :=
  required_present r
  && negb (Js.truthy_num (toChain r)
           && negb (bool_decide (toChain r = fromChain r)))
  && negb (malformed isAddress (fromToken r))
  && negb (malformed isAddress (toToken r)).

Definition with_toChain (c : option Z) (r : SwapRequest) : SwapRequest :=
  {| walletId := walletId r; fromToken := fromToken r; toToken := toToken r;
     amount := amount r; fromChain := fromChain r; toChain := c;
     gasless := gasless r; skipApproval := skipApproval r |}.

(** The approval [ensureTokenApproval] asks the custody service to send. *)
Definition approval_request (walletId tokenAddress : string) (chainId : Z)
  : RpcRequest :=
  {| rpc_walletId := walletId; caip2 := getCAIP2 chainId;
     method := "eth_sendTransaction";
     transaction :=
       {| tx_to := Some tokenAddress;
          tx_data := Some (Ethers.encodeApprove BEBOP_SETTLEMENT
                             Ethers.MaxUint256);
          tx_value := "0x0" |};
     sponsor := None |}.

(** ** The Sepolia withdrawal script *)

Module Hex.

Definition hex_digit_value (c : ascii) : Z :=
  let n := Z.of_N (N_of_ascii c) in
  if (48 <=? n) && (n <=? 57) then n - 48
  else if (97 <=? n) && (n <=? 102) then n - 87
  else if (65 <=? n) && (n <=? 70) then n - 55
  else 0.

(** Value of a string of hexadecimal digits read after the prefix worth
    [acc]. *)
Fixpoint hex_value (acc : Z) (s : string) : Z :=
  match s with
  | String c r => hex_value (16 * acc + hex_digit_value c) r
  | EmptyString => acc
  end.

(** Number of hexadecimal digits of a non-negative integer (one for zero). *)
Definition hex_length (v : Z) : nat :=
  if v =? 0 then 1%nat else Z.to_nat (Z.log2 v / 4 + 1).

(** Modelled from the spec: [ethers.toBeHex] is library code outside the
    repository.  A non-negative integer is written in lower-case hexadecimal
    with as many digits as it needs, one zero in front when that number is
    odd, after the prefix [0x]; a negative integer is refused. *)
Definition toBeHex (v : Z) : option string :=
  if v <? 0 then None
  else
    let n := hex_length v in
    Some ("0x" +:+ Ethers.hex_word (n + n mod 2) v).

End Hex.

(** The object destructured by [withdrawSepoliaETH]. *)
Record WithdrawRequest := {
  wd_walletId : option string;
  recipientAddress : option string;
  amountEth : option string;
  sponsorGas : option bool
}.

(** One constructor per place where the withdrawal can throw; [CustodyRejected] is
    a rejection by the custody service, passed on as it came. *)
Inductive WithdrawError :=
| WdWalletIdRequired
| RecipientRequired
| AmountEthRequired
| InvalidRecipient (a : string)
| WdInvalidAmount (a : string)
| NegativeValue (v : Z)
| CustodyRejected (e : SwapError).

Definition SEPOLIA : string := "eip155:11155111".

Section Withdrawal.

Variable isAddress : string -> bool.

(** [withdrawSepoliaETH]: three presence checks, the address check, the
    amount in wei as hexadecimal, one custody call on Sepolia. *)
Definition withdrawSepoliaETH (w : World) (r : WithdrawRequest)
  : list Effect * (WithdrawError + RpcData) :=
  let sponsorGas := Js.param_default false (sponsorGas r) in
  if negb (Js.truthy_str (wd_walletId r)) then ([], inl WdWalletIdRequired)
  else if negb (Js.truthy_str (recipientAddress r))
       then ([], inl RecipientRequired)
  else if negb (Js.truthy_str (amountEth r)) then ([], inl AmountEthRequired)
  else
    let walletId := Js.or_default (wd_walletId r) EmptyString in
    let recipientAddress := Js.or_default (recipientAddress r) EmptyString in
    let amountEth := Js.or_default (amountEth r) EmptyString in
    if negb (isAddress recipientAddress)
    then ([], inl (InvalidRecipient recipientAddress))
    else
      match Ethers.parseEther amountEth with
      | None => ([], inl (WdInvalidAmount amountEth))
      | Some wei =>
          match Hex.toBeHex wei with
          | None => ([], inl (NegativeValue wei))
          | Some amountWeiHex =>
              let req := {| rpc_walletId := walletId;
                            caip2 := SEPOLIA;
                            method := "eth_sendTransaction";
                            transaction := {| tx_to := Some recipientAddress;
                                              tx_data := None;
                                              tx_value := amountWeiHex |};
                            sponsor := Some sponsorGas |} in
              match walletApi_rpc w req with
              | Ok data => ([WalletRpc req], inr data)
              | Throw e => ([WalletRpc req], inl (CustodyRejected e))
              end
          end
      end.

End Withdrawal.

(** A withdrawal accepted by the four checks made before the amount is
    converted. *)
Definition valid_withdrawal (isAddress : string -> bool) (r : WithdrawRequest)
  : bool :=
  Js.truthy_str (wd_walletId r) && Js.truthy_str (recipientAddress r)
  && Js.truthy_str (amountEth r)
  && isAddress (Js.or_default (recipientAddress r) EmptyString).

Definition is_withdraw_validation_error (e : WithdrawError) : bool :=
  match e with
  | WdWalletIdRequired | RecipientRequired | AmountEthRequired
  | InvalidRecipient _ => true
  | _ => false
  end.

(** ** The configuration check of the transaction test script *)



(** ** Further test doubles and inputs *)

Module Cases.
Import Scenario.

(** A custody service that does not know the wallet. *)
Definition mock_no_wallet : World :=
  {| env := env mock;
     wallets_get := fun _ => Throw (Rejected Custody "wallet not found");
     axios_get := axios_get mock;
     walletApi_rpc := walletApi_rpc mock |}.

(** A venue whose client rejects the request. *)
Definition mock_venue_down : World :=
  {| env := env mock;
     wallets_get := wallets_get mock;
     axios_get := fun _ _ =>
       Throw (Rejected Venue "Request failed with status code 500");
     walletApi_rpc := walletApi_rpc mock |}.

(** A custody service that rejects every submission. *)
Definition mock_submission_rejected : World :=
  {| env := env mock;
     wallets_get := wallets_get mock;
     axios_get := axios_get mock;
     walletApi_rpc := fun _ => Throw (Rejected Custody "insufficient funds") |}.

(** A venue that prices the swap but prepares no transaction. *)
Definition mock_no_transaction : World :=
  {| env := env mock;
     wallets_get := wallets_get mock;
     axios_get := fun _ _ =>
       Ok {| error := None; tx := None;
             resp_buyAmount := Some "2500000000";
             resp_sellAmount := None |};
     walletApi_rpc := walletApi_rpc mock |}.

Definition no_transaction_reply : QuoteData :=
  {| error := None; tx := None; resp_buyAmount := Some "2500000000";
     resp_sellAmount := None |}.

(** The scenario request on Goerli, chain 5. *)
Definition on_goerli : SwapRequest :=
  {| walletId := Some "w1"; fromToken := Some WETH; toToken := Some USDC;
     amount := Some "1"; fromChain := Some 5; toChain := None;
     gasless := None; skipApproval := None |}.

(** The scenario request with an amount in exponent notation. *)
Definition exponent_amount : SwapRequest :=
  {| walletId := Some "w1"; fromToken := Some WETH; toToken := Some USDC;
     amount := Some "1e18"; fromChain := Some 8453; toChain := None;
     gasless := None; skipApproval := None |}.

(** A digits-only amount of 137 digits. *)
Definition huge_amount : string := "1" +:+ Ethers.zeros 136.

(** A request without buy token. *)
Definition no_buy_token : SwapRequest :=
  {| walletId := Some "w1"; fromToken := Some WETH; toToken := None;
     amount := Some "1"; fromChain := Some 8453; toChain := None;
     gasless := None; skipApproval := None |}.

(** Withdrawals: a hundredth of an ether to [taker], and one without
    recipient. *)
Definition withdrawal : WithdrawRequest :=
  {| wd_walletId := Some "w1"; recipientAddress := Some taker;
     amountEth := Some "0.01"; sponsorGas := None |}.

Definition withdrawal_no_recipient : WithdrawRequest :=
  {| wd_walletId := Some "w1"; recipientAddress := None;
     amountEth := Some "0.01"; sponsorGas := Some true |}.

Definition withdrawal_call : RpcRequest :=
  {| rpc_walletId := "w1"; caip2 := "eip155:11155111";
     method := "eth_sendTransaction";
     transaction := {| tx_to := Some taker; tx_data := None;
                       tx_value := "0x2386f26fc10000" |};
     sponsor := Some false |}.

(** A reading of [parseInt] on plain digit strings, for the examples. *)
Definition parse_digits (o : option string) : option Z :=
  match o with
  | Some s =>
      if Ethers.all_digits s && negb (String.eqb s EmptyString)
      then Some (Ethers.digits_value 0 s) else None
  | None => None
  end.

(** A command line that forgets the tokens. *)
Definition argv_no_tokens : list string := ["node"; "swap.js"].



End Cases.

(** ** Facts about the decimal conversion *)

Module EthersFacts.
Import Ethers.

Lemma append_empty_r (s : string) : s +:+ EmptyString = s.
Proof.
  induction s as [|c s IH]; [reflexivity|].
  change (String c (s +:+ EmptyString) = String c s). f_equal. exact IH.
Qed.

Lemma length_append (a b : string) :
  String.length (a +:+ b) = (String.length a + String.length b)%nat.
Proof.
  induction a as [|c a IH]; [reflexivity|].
  change (S (String.length (a +:+ b))
          = S (String.length a + String.length b)).
  f_equal. exact IH.
Qed.

Lemma length_zeros (n : nat) : String.length (zeros n) = n.
Proof. induction n as [|n IH]; simpl; [reflexivity|]. now rewrite IH. Qed.

Lemma take_str_all (s : string) : take_str (String.length s) s = s.
Proof. induction s as [|c s IH]; simpl; [reflexivity|]. now rewrite IH. Qed.

Lemma drop_str_all (s : string) : drop_str (String.length s) s = EmptyString.
Proof. induction s as [|c s IH]; simpl; [reflexivity|]. exact IH. Qed.

Lemma digit_not_minus (c : ascii) :
  is_digit c = true -> Ascii.eqb "-" c = false.
Proof.
  intros H. destruct (Ascii.eqb_spec "-"%char c) as [<-|]; [|reflexivity].
  discriminate H.
Qed.

Lemma digit_of_range (c : ascii) : is_digit c = true -> 0 <= digit_of c <= 9.
Proof. unfold is_digit, digit_of. cbv zeta. lia. Qed.

(** A run of digits followed by nothing or by a character that is no digit
    is split exactly there. *)
Lemma span_digits_app (d rest : string) :
  all_digits d = true ->
  fst (span_digits rest) = EmptyString ->
  span_digits (d +:+ rest) = (d, rest).
Proof.
  intros Hd Hr. induction d as [|c d IH]; simpl in *.
  - destruct rest as [|c r]; [reflexivity|]. simpl in *.
    destruct (is_digit c); [|reflexivity].
    destruct (span_digits r). discriminate Hr.
  - apply andb_prop in Hd as [Hc Hd]. rewrite Hc, (IH Hd). reflexivity.
Qed.

Lemma digits_value_acc (acc : Z) (s : string) :
  digits_value acc s
  = acc * 10 ^ Z.of_nat (String.length s) + digits_value 0 s.
Proof.
  revert acc. induction s as [|c s IH]; intros acc.
  - simpl. lia.
  - cbn [digits_value String.length].
    rewrite (IH (10 * acc + digit_of c)), (IH (10 * 0 + digit_of c)).
    rewrite Nat2Z.inj_succ, Z.pow_succ_r by lia. ring.
Qed.

Lemma digits_value_app (acc : Z) (a b : string) :
  digits_value acc (a +:+ b) = digits_value (digits_value acc a) b.
Proof.
  revert acc. induction a as [|c a IH]; intros acc; simpl; [reflexivity|].
  apply IH.
Qed.

Lemma digits_value_zeros (acc : Z) (n : nat) :
  digits_value acc (zeros n) = acc * 10 ^ Z.of_nat n.
Proof.
  revert acc. induction n as [|n IH]; intros acc.
  - simpl. lia.
  - cbn [zeros digits_value]. rewrite IH.
    rewrite Nat2Z.inj_succ, Z.pow_succ_r by lia.
    change (digit_of "0") with 0. ring.
Qed.

Lemma digits_value_nonneg (s : string) (acc : Z) :
  all_digits s = true -> 0 <= acc -> 0 <= digits_value acc s.
Proof.
  revert acc. induction s as [|c s IH]; intros acc Hd Hacc; simpl in *.
  - exact Hacc.
  - apply andb_prop in Hd as [Hc Hd]. apply IH; [exact Hd|].
    pose proof (digit_of_range c Hc). lia.
Qed.

(** What [parseUnits] computes on [whole.frac]: the whole part scaled by
    ten to the [decimals], plus the fraction scaled to the same unit. *)
Lemma parseUnits_decimal (whole frac : string) (decimals : nat) :
  all_digits whole = true -> all_digits frac = true ->
  (String.length frac <= decimals)%nat ->
  (0 < String.length whole + String.length frac)%nat ->
  digits_value 0 whole * 10 ^ Z.of_nat decimals
    + digits_value 0 frac * 10 ^ Z.of_nat (decimals - String.length frac)
    < 2 ^ 511 ->
  parseUnits (whole +:+ "." +:+ frac) decimals
  = Some (digits_value 0 whole * 10 ^ Z.of_nat decimals
          + digits_value 0 frac
            * 10 ^ Z.of_nat (decimals - String.length frac)).
Proof.
  intros Hw Hf Hlen Hpos Hbound.
  unfold parseUnits.
  assert (Hsign : skip_char "-" (whole +:+ "." +:+ frac)
                  = (false, whole +:+ "." +:+ frac)).
  { destruct whole as [|c whole']; [reflexivity|].
    simpl in Hw. apply andb_prop in Hw as [Hc _].
    change (String c whole' +:+ "." +:+ frac)
      with (String c (whole' +:+ "." +:+ frac)).
    unfold skip_char. rewrite (digit_not_minus c Hc). reflexivity. }
  rewrite Hsign.
  rewrite (span_digits_app whole ("." +:+ frac) Hw) by reflexivity.
  change (skip_char "." ("." +:+ frac)) with (true, frac).
  pose proof (span_digits_app frac EmptyString Hf eq_refl) as Hspan.
  rewrite append_empty_r in Hspan. cbv beta iota. rewrite Hspan.
  cbn [String.eqb negb].
  destruct (Nat.eqb_spec (String.length whole + String.length frac) 0);
    [lia|].
  set (k := (decimals - String.length frac)%nat).
  assert (Hpad : String.length (frac +:+ zeros k) = decimals).
  { rewrite length_append, length_zeros. unfold k. lia. }
  assert (Hdrop : drop_str decimals (frac +:+ zeros k) = EmptyString).
  { rewrite <- Hpad at 1. apply drop_str_all. }
  assert (Htake : take_str decimals (frac +:+ zeros k) = frac +:+ zeros k).
  { rewrite <- Hpad at 1. apply take_str_all. }
  rewrite Hdrop, Htake. cbn [all_zeros negb].
  rewrite !digits_value_app, digits_value_zeros.
  rewrite (digits_value_acc (digits_value 0 whole) frac).
  assert (Hval : (digits_value 0 whole * 10 ^ Z.of_nat (String.length frac)
                  + digits_value 0 frac) * 10 ^ Z.of_nat k
                 = digits_value 0 whole * 10 ^ Z.of_nat decimals
                   + digits_value 0 frac * 10 ^ Z.of_nat k).
  { replace (Z.of_nat decimals)
      with (Z.of_nat (String.length frac) + Z.of_nat k) by (unfold k; lia).
    rewrite Z.pow_add_r by lia. ring. }
  rewrite Hval.
  pose proof (digits_value_nonneg whole 0 Hw (Z.le_refl 0)) as H0w.
  pose proof (digits_value_nonneg frac 0 Hf (Z.le_refl 0)) as H0f.
  assert (0 <= digits_value 0 whole * 10 ^ Z.of_nat decimals
               + digits_value 0 frac * 10 ^ Z.of_nat k) as Hge.
  { apply Z.add_nonneg_nonneg; apply Z.mul_nonneg_nonneg; try assumption;
      apply Z.pow_nonneg; lia. }
  destruct (Z.leb_spec (- 2 ^ 511)
              (digits_value 0 whole * 10 ^ Z.of_nat decimals
               + digits_value 0 frac * 10 ^ Z.of_nat k)) as [_|Hlt].
  - destruct (Z.ltb_spec (digits_value 0 whole * 10 ^ Z.of_nat decimals
               + digits_value 0 frac * 10 ^ Z.of_nat k) (2 ^ 511));
      [reflexivity|].
    unfold k in *. lia.
  - exfalso. assert (0 < 2 ^ 511) by (apply Z.pow_pos_nonneg; lia). lia.
Qed.

End EthersFacts.

(** ** Stage-by-stage description of a run *)

Lemma or_default_truthy (o : option string) (d : string) :
  Js.truthy_str o = true -> o = Some (Js.or_default o d).
Proof.
  destruct o as [s|]; simpl; [|discriminate].
  intros ->. reflexivity.
Qed.

(** [getBebopQuote], exit by exit. *)
Lemma getBebopQuote_unfold (w : World) (addr : option string)
    (ft tt amt : string) (ch : Z) (g : bool) (k s : string) :
  getBebopQuote w addr ft tt amt ch g k s =
  match getChainName ch with
  | Throw e => ([], Throw e)
  | Ok name =>
      match Ethers.parseEther amt with
      | None => ([], Throw (InvalidAmount amt))
      | Some v =>
          let url := quote_url name in
          let p := quote_params addr ft tt (Js.string_of_Z v) g in
          match axios_get w url p with
          | Throw e => ([HttpGet url p], Throw e)
          | Ok d =>
              if Js.truthy_str (error d)
              then ([HttpGet url p],
                    Throw (BebopQuoteError (str_of (error d))))
              else match reply_buyAmount d with
                   | None => ([HttpGet url p],
                              Throw (UndefinedAccess "response.data.tx"))
                   | Some b =>
                       ([HttpGet url p],
                        Ok {| q_tx := tx d;
                              q_sellAmount := Js.string_of_Z v;
                              q_buyAmount := b |})
                   end
          end
      end
  end.
Proof.
  unfold getBebopQuote, reply_buyAmount, quote_url, quote_params.
  destruct (getChainName ch) as [name|e]; [|reflexivity].
  destruct (Ethers.parseEther amt) as [v|]; [|reflexivity].
  unfold bind at 1. unfold bind at 1. cbv beta iota.
  unfold ret at 1. cbv beta iota. unfold perform, bind at 1.
  destruct (axios_get w _ _) as [d|e]; [|reflexivity].
  unfold when_throw.
  destruct (Js.truthy_str (error d)); [reflexivity|].
  destruct (Js.truthy_str (resp_buyAmount d)); [reflexivity|].
  destruct (tx d); reflexivity.
Qed.

(** [executeSwap], exit by exit. *)
Lemma executeSwap_unfold (w : World) (wid : string) (raw : option RawTx)
    (ch : Z) :
  executeSwap w wid raw ch =
  match raw with
  | None => ([], Throw (UndefinedAccess "rawTransaction"))
  | Some rt =>
      let req := settlement_request wid rt ch in
      ([WalletRpc req],
       match walletApi_rpc w req with
       | Ok d => Ok (hash d)
       | Throw e => Throw e
       end)
  end.
Proof.
  unfold executeSwap, settlement_request.
  destruct raw as [rt|]; [|reflexivity].
  unfold bind, perform, ret.
  destruct (walletApi_rpc w _); reflexivity.
Qed.

(** The three stages after validation, exit by exit. *)
Lemma pipeline_unfold (w : World) (wid ft tt amt : string) (ch : Z) (g : bool) :
  pipeline w wid ft tt amt ch g =
  match wallets_get w wid with
  | Throw e => ([WalletsGet wid], Throw e)
  | Ok wal =>
      match getChainName ch with
      | Throw e => ([WalletsGet wid], Throw e)
      | Ok name =>
          match Ethers.parseEther amt with
          | None => ([WalletsGet wid], Throw (InvalidAmount amt))
          | Some v =>
              let url := quote_url name in
              let p := quote_params (address wal) ft tt (Js.string_of_Z v) g in
              match axios_get w url p with
              | Throw e => ([WalletsGet wid; HttpGet url p], Throw e)
              | Ok d =>
                  if Js.truthy_str (error d)
                  then ([WalletsGet wid; HttpGet url p],
                        Throw (BebopQuoteError (str_of (error d))))
                  else
                    match reply_buyAmount d with
                    | None => ([WalletsGet wid; HttpGet url p],
                               Throw (UndefinedAccess "response.data.tx"))
                    | Some b =>
                        match tx d with
                        | None => ([WalletsGet wid; HttpGet url p],
                                   Throw (UndefinedAccess "rawTransaction"))
                        | Some rt =>
                            let req := settlement_request wid rt ch in
                            ([WalletsGet wid; HttpGet url p; WalletRpc req],
                             match walletApi_rpc w req with
                             | Throw e => Throw e
                             | Ok rd =>
                                 Ok {| success := true;
                                       transactionHash := hash rd;
                                       quote :=
                                         {| qs_fromToken := ft;
                                            qs_toToken := tt;
                                            sellAmount := Js.string_of_Z v;
                                            buyAmount := b |} |}
                             end)
                        end
                    end
              end
          end
      end
  end.
Proof.
  unfold pipeline, getWalletAddress.
  unfold bind at 1. unfold bind at 1. unfold perform at 1.
  destruct (wallets_get w wid) as [wal|e]; [|reflexivity].
  unfold ret at 1. cbv beta iota.
  rewrite getBebopQuote_unfold.
  destruct (getChainName ch) as [name|e]; [|reflexivity].
  destruct (Ethers.parseEther amt) as [v|]; [|reflexivity].
  cbv zeta.
  destruct (axios_get w _ _) as [d|e]; [|reflexivity].
  destruct (Js.truthy_str (error d)); [reflexivity|].
  destruct (reply_buyAmount d) as [b|]; [|reflexivity].
  unfold bind at 1. cbv beta iota.
  rewrite executeSwap_unfold. cbn [q_tx].
  destruct (tx d) as [rt|]; [|reflexivity].
  cbv zeta. unfold bind, ret.
  destruct (walletApi_rpc w _); reflexivity.
Qed.

Lemma skip_step_neutral {A} (b : bool) (k : M A) :
  bind (if b then ret tt else ret tt) (fun _ => k) = k.
Proof. destruct b, k as [t o]; reflexivity. Qed.

(** A run is either stopped by the first failing check, with nothing sent,
    or it is the pipeline on the validated values. *)
Lemma swapTokenBebop_unfold (isAddress : string -> bool) (w : World)
    (r : SwapRequest) :
  swapTokenBebop isAddress w r =
  match first_rejection isAddress r with
  | Some e => ([], Throw e)
  | None =>
      pipeline w (str_of (walletId r))
        (str_of (fromToken r))
        (str_of (toToken r))
        (str_of (amount r))
        (chain_of (fromChain r)) (Js.param_default false (gasless r))
  end.
Proof.
  destruct r as [wid ft tt amt fc tc g sk].
  unfold swapTokenBebop, first_rejection, require_str, require_num, malformed.
  cbn [walletId fromToken toToken amount fromChain toChain gasless
       skipApproval].
  destruct wid as [wid|]; [|reflexivity].
  cbn [Js.truthy_str Js.or_default].
  destruct (String.eqb wid EmptyString); [reflexivity|].
  destruct ft as [ft|]; [|reflexivity].
  cbn [Js.truthy_str Js.or_default].
  destruct (String.eqb ft EmptyString); [reflexivity|].
  destruct tt as [tt|]; [|reflexivity].
  cbn [Js.truthy_str Js.or_default].
  destruct (String.eqb tt EmptyString); [reflexivity|].
  destruct amt as [amt|]; [|reflexivity].
  cbn [Js.truthy_str Js.or_default].
  destruct (String.eqb amt EmptyString); [reflexivity|].
  destruct fc as [fc|]; [|reflexivity].
  cbn [Js.truthy_num chain_of]. destruct (fc =? 0); [reflexivity|].
  cbn [negb Js.or_default Js.truthy_str chain_of].
  cbv [bind ret throw when_throw pipeline].
  destruct (_ && negb (bool_decide (tc = Some fc))); [reflexivity|].
  destruct (isAddress ft); [|reflexivity].
  destruct (isAddress tt); [|reflexivity].
  cbn [negb app].
  destruct (getWalletAddress w wid fc) as [t [wal|e]]; [|reflexivity].
  destruct (Js.param_default false sk); cbn [negb];
    destruct (getBebopQuote _ _ _ _ _ _ _ _ _) as [t1 [q|e]]; try reflexivity;
    destruct (executeSwap _ _ _ _) as [t2 [h|e]]; reflexivity.
Qed.

(** ** Facts about validation *)

Lemma first_rejection_is_validation (isAddress : string -> bool)
    (r : SwapRequest) (e : SwapError) :
  first_rejection isAddress r = Some e -> is_validation_error e = true.
Proof.
  unfold first_rejection.
  repeat match goal with
         | |- context [if ?b then _ else _] => destruct b
         end; intros [= <-]; reflexivity.
Qed.

Lemma first_rejection_None (isAddress : string -> bool) (r : SwapRequest) :
  first_rejection isAddress r = None ->
  required_present r = true
  /\ malformed isAddress (fromToken r) = false
  /\ malformed isAddress (toToken r) = false
  /\ Js.truthy_num (toChain r) && negb (bool_decide (toChain r = fromChain r))
     = false.
Proof.
  unfold first_rejection, required_present.
  destruct (Js.truthy_str (walletId r)); [|discriminate].
  destruct (Js.truthy_str (fromToken r)); [|discriminate].
  destruct (Js.truthy_str (toToken r)); [|discriminate].
  destruct (Js.truthy_str (amount r)); [|discriminate].
  destruct (Js.truthy_num (fromChain r)); [|discriminate].
  cbn [negb andb].
  destruct (_ && negb (bool_decide (toChain r = fromChain r))); [discriminate|].
  destruct (malformed isAddress (fromToken r)); [discriminate|].
  destruct (malformed isAddress (toToken r)); [discriminate|].
  intros _. repeat split.
Qed.

Lemma first_rejection_present (isAddress : string -> bool) (r : SwapRequest) :
  required_present r = true ->
  Js.truthy_num (toChain r) && negb (bool_decide (toChain r = fromChain r))
    = true ->
  first_rejection isAddress r = Some SameChainOnly.
Proof.
  unfold first_rejection, required_present.
  intros Hp Hc.
  destruct (Js.truthy_str (walletId r)); [|discriminate].
  destruct (Js.truthy_str (fromToken r)); [|discriminate].
  destruct (Js.truthy_str (toToken r)); [|discriminate].
  destruct (Js.truthy_str (amount r)); [|discriminate].
  destruct (Js.truthy_num (fromChain r)); [|discriminate].
  cbn [negb]. rewrite Hc. reflexivity.
Qed.

(** Which error the presence checks give, in the order the script makes
    them. *)
Lemma first_rejection_missing (isAddress : string -> bool) (r : SwapRequest) :
  (Js.truthy_str (walletId r) = false ->
   first_rejection isAddress r = Some WalletIdRequired)
  /\ (Js.truthy_str (walletId r) = true ->
      Js.truthy_str (fromToken r) = false ->
      first_rejection isAddress r = Some FromTokenRequired)
  /\ (Js.truthy_str (walletId r) = true ->
      Js.truthy_str (fromToken r) = true ->
      Js.truthy_str (toToken r) = false ->
      first_rejection isAddress r = Some ToTokenRequired)
  /\ (Js.truthy_str (walletId r) = true ->
      Js.truthy_str (fromToken r) = true ->
      Js.truthy_str (toToken r) = true ->
      Js.truthy_str (amount r) = false ->
      first_rejection isAddress r = Some AmountRequired)
  /\ (Js.truthy_str (walletId r) = true ->
      Js.truthy_str (fromToken r) = true ->
      Js.truthy_str (toToken r) = true ->
      Js.truthy_str (amount r) = true ->
      Js.truthy_num (fromChain r) = false ->
      first_rejection isAddress r = Some FromChainRequired).
Proof.
  unfold first_rejection.
  repeat split; intros;
    repeat match goal with
           | H : _ = true |- _ => rewrite H; clear H
           | H : _ = false |- _ => rewrite H; clear H
           end; reflexivity.
Qed.

Lemma chains_unsupported (chainId : Z) :
  ~ In chainId supported_chains -> chains !! chainId = None.
Proof.
  intros H. unfold chains.
  repeat (rewrite lookup_insert_ne;
          [|intros <-; apply H; simpl; tauto]).
  apply lookup_empty.
Qed.

Lemma getChainName_unsupported (chainId : Z) :
  ~ In chainId supported_chains ->
  getChainName chainId = Throw (UnsupportedChain chainId).
Proof.
  intros H. unfold getChainName. rewrite (chains_unsupported _ H). reflexivity.
Qed.

(** Case analysis on the exits of a run. *)
Ltac exits :=
  repeat match goal with
         | H : context [match ?x with _ => _ end] |- _ =>
             destruct x eqn:?
         | |- context [match ?x with _ => _ end] =>
             destruct x eqn:?
         end.

Ltac run_cases isAddress w r :=
  rewrite (swapTokenBebop_unfold isAddress w r) in *;
  destruct (first_rejection isAddress r) eqn:?;
  [|rewrite pipeline_unfold in *; cbv zeta in *].

Lemma required_present_fields (r : SwapRequest) :
  required_present r = true ->
  walletId r = Some (str_of (walletId r))
  /\ fromToken r = Some (str_of (fromToken r))
  /\ toToken r = Some (str_of (toToken r))
  /\ amount r = Some (str_of (amount r))
  /\ fromChain r = Some (chain_of (fromChain r)).
Proof.
  unfold required_present. intros H.
  repeat (apply andb_prop in H as [H ?]).
  repeat split; try (apply or_default_truthy; assumption).
  destruct (fromChain r); [reflexivity|discriminate].
Qed.

(** The texts a caller sees for the same-chain and the unsupported-chain
    rejections. *)
Example rejection_messages :
  message SameChainOnly
  = Some "Bebop only supports same-chain swaps. fromChain must equal toChain."
  /\ message (UnsupportedChain 5)
     = Some "Unsupported chain ID: 5. Supported: 1, 10, 137, 8453, 42161, 11155111"
  /\ message (BebopQuoteError "InsufficientLiquidity")
     = Some "Bebop quote error: InsufficientLiquidity".
Proof. repeat split; vm_compute; reflexivity. Qed.

(** ** The claims *)

(** C3, as amended.  A request whose destination chain is supplied (a
    non-zero number) and differs from the source chain is rejected before
    anything is sent.  The error is the same-chain-only error whenever the
    five required fields are present; otherwise it is the error of the first
    missing field in the order the script tests them: wallet identifier, sell
    token, buy token, amount, source chain. *)
Theorem cross_chain_rejected (isAddress : string -> bool) (w : World)
    (r : SwapRequest) (dest : Z) :
  toChain r = Some dest -> dest <> 0 -> fromChain r <> Some dest ->
  exists e,
    swapTokenBebop isAddress w r = ([], Throw e)
    /\ is_validation_error e = true
    /\ (required_present r = true -> e = SameChainOnly)
    /\ (Js.truthy_str (walletId r) = false -> e = WalletIdRequired)
    /\ (Js.truthy_str (walletId r) = true ->
        Js.truthy_str (fromToken r) = false -> e = FromTokenRequired)
    /\ (Js.truthy_str (walletId r) = true ->
        Js.truthy_str (fromToken r) = true ->
        Js.truthy_str (toToken r) = false -> e = ToTokenRequired)
    /\ (Js.truthy_str (walletId r) = true ->
        Js.truthy_str (fromToken r) = true ->
        Js.truthy_str (toToken r) = true ->
        Js.truthy_str (amount r) = false -> e = AmountRequired)
    /\ (Js.truthy_str (walletId r) = true ->
        Js.truthy_str (fromToken r) = true ->
        Js.truthy_str (toToken r) = true ->
        Js.truthy_str (amount r) = true ->
        Js.truthy_num (fromChain r) = false -> e = FromChainRequired).
Proof.
  intros Hto Hnz Hne.
  assert (Hc : Js.truthy_num (toChain r)
               && negb (bool_decide (toChain r = fromChain r)) = true).
  { rewrite Hto. cbn [Js.truthy_num].
    apply andb_true_intro. split.
    - apply negb_true_iff, Z.eqb_neq, Hnz.
    - apply negb_true_iff, bool_decide_eq_false. congruence. }
  rewrite swapTokenBebop_unfold.
  pose proof (first_rejection_missing isAddress r)
    as (Hm1 & Hm2 & Hm3 & Hm4 & Hm5).
  destruct (first_rejection isAddress r) as [e|] eqn:Hrej.
  - exists e. split; [reflexivity|]. split.
    { eapply first_rejection_is_validation, Hrej. }
    split.
    { intros Hp. pose proof (first_rejection_present isAddress r Hp Hc) as Hs.
      congruence. }
    repeat split; intros.
    + specialize (Hm1 ltac:(assumption)). congruence.
    + specialize (Hm2 ltac:(assumption) ltac:(assumption)). congruence.
    + specialize (Hm3 ltac:(assumption) ltac:(assumption) ltac:(assumption)).
      congruence.
    + specialize (Hm4 ltac:(assumption) ltac:(assumption) ltac:(assumption)
                    ltac:(assumption)).
      congruence.
    + specialize (Hm5 ltac:(assumption) ltac:(assumption) ltac:(assumption)
                    ltac:(assumption) ltac:(assumption)).
      congruence.
  - apply first_rejection_None in Hrej as (_ & _ & _ & Hno). congruence.
Qed.

(** C4.  Each of the six supported chain identifiers has one network name in
    the static table, and for any other identifier the quote stage throws the
    unsupported-chain error with an empty trace: nothing is requested. *)
Theorem chain_name_table (w : World) (addr : option string)
    (ft tt amt : string) (g : bool) (k s : string) (chainId : Z) :
  (In chainId supported_chains ->
     exists name,
       getChainName chainId = Ok name /\ chains !! chainId = Some name
       /\ forall name', getChainName chainId = Ok name' -> name' = name)
  /\ (~ In chainId supported_chains ->
      getChainName chainId = Throw (UnsupportedChain chainId)
      /\ getBebopQuote w addr ft tt amt chainId g k s
         = ([], Throw (UnsupportedChain chainId)))
  /\ map getChainName supported_chains
     = [Ok "ethereum"; Ok "base"; Ok "polygon"; Ok "arbitrum"; Ok "optimism";
        Ok "sepolia"].
Proof.
  split; [|split].
  - intros Hin.
    assert (Hname : exists name,
               getChainName chainId = Ok name /\ chains !! chainId = Some name).
    { simpl in Hin.
      destruct Hin as [<-|[<-|[<-|[<-|[<-|[<-|[]]]]]]];
        eexists; split; vm_compute; reflexivity. }
    destruct Hname as (name & Hg & Hl).
    exists name. repeat split; try assumption.
    intros name' Hg'. congruence.
  - intros Hout. split.
    + apply getChainName_unsupported, Hout.
    + rewrite getBebopQuote_unfold, (getChainName_unsupported _ Hout).
      reflexivity.
  - vm_compute. reflexivity.
Qed.

(** C6.  A request that lacks the wallet identifier, a token, the amount or
    the source chain (undefined, empty or zero), or whose sell or buy token
    fails the address check, is rejected with one of the errors of the
    validation block, and the trace is empty: nothing has been sent. *)
Theorem invalid_request_rejected (isAddress : string -> bool) (w : World)
    (r : SwapRequest) :
  required_present r = false
  \/ malformed isAddress (fromToken r) = true
  \/ malformed isAddress (toToken r) = true ->
  exists e,
    swapTokenBebop isAddress w r = ([], Throw e)
    /\ is_validation_error e = true.
Proof.
  intros Hbad.
  rewrite swapTokenBebop_unfold.
  destruct (first_rejection isAddress r) as [e|] eqn:Hrej.
  - exists e. split; [reflexivity|].
    eapply first_rejection_is_validation, Hrej.
  - apply first_rejection_None in Hrej as (Hp & Hf & Ht & _).
    destruct Hbad as [H|[H|H]]; congruence.
Qed.

(** C8.  [executeSwap] makes exactly one custody call: destination and call
    data of the prepared transaction, the value of the prepared transaction or
    [0x0] when it has none, the chain as [eip155:<chainId>], the method
    [eth_sendTransaction]; it returns the hash of the custody reply. *)
Theorem executeSwap_submission (w : World) (wid : string) (rt : RawTx)
    (chainId : Z) :
  let req :=
    {| rpc_walletId := wid;
       caip2 := "eip155:" +:+ Js.string_of_Z chainId;
       method := "eth_sendTransaction";
       transaction :=
         {| tx_to := raw_to rt;
            tx_data := raw_data rt;
            tx_value := match raw_value rt with
                        | Some v =>
                            if String.eqb v EmptyString then "0x0" else v
                        | None => "0x0"
                        end |};
       sponsor := None |} in
  executeSwap w wid (Some rt) chainId
  = ([WalletRpc req],
     match walletApi_rpc w req with
     | Ok d => Ok (hash d)
     | Throw e => Throw e
     end)
  /\ getCAIP2 8453 = "eip155:8453".
Proof.
  intros req.
  assert (Hreq : settlement_request wid rt chainId = req).
  { unfold settlement_request, req, getCAIP2, Js.or_default, Js.truthy_str.
    destruct (raw_value rt) as [v|]; [|reflexivity].
    destruct (String.eqb v EmptyString); reflexivity. }
  split; [|reflexivity].
  rewrite executeSwap_unfold. cbv zeta. rewrite Hreq. reflexivity.
Qed.

(** C5.  When the reply to the quote request of a run carries an error
    payload (a non-empty [error] field), the run ends with the quote error
    built from that payload, and no custody submission appears in its trace:
    [executeSwap] is never reached.  The same holds of the quote stage alone. *)
Theorem quote_error_stops_swap (isAddress : string -> bool) (w : World)
    (r : SwapRequest) (url : string) (p : QuoteParams) (d : QuoteData) :
  In (HttpGet url p) (trace (swapTokenBebop isAddress w r)) ->
  axios_get w url p = Ok d ->
  Js.truthy_str (error d) = true ->
  swapTokenBebop isAddress w r
  = ([WalletsGet (str_of (walletId r)); HttpGet url p],
     Throw (BebopQuoteError (str_of (error d))))
  /\ rpc_calls (trace (swapTokenBebop isAddress w r)) = []
  /\ exists addr ft tt amt ch g k s,
       getBebopQuote w addr ft tt amt ch g k s
       = ([HttpGet url p],
          Throw (BebopQuoteError (str_of (error d)))).
Proof.
  intros Hin Hget Herr.
  run_cases isAddress w r.
  - destruct Hin.
  - exits; cbn [trace result fst snd In rpc_calls] in *;
      intuition (try discriminate); simplify_eq; try congruence.
    exists (address a), (str_of (fromToken r)),
      (str_of (toToken r)), (str_of (amount r)),
      (chain_of (fromChain r)), (Js.param_default false (gasless r)),
      EmptyString, EmptyString.
    rewrite getBebopQuote_unfold.
    repeat match goal with
           | H : getChainName _ = _ |- _ => rewrite H; clear H
           | H : Ethers.parseEther _ = _ |- _ => rewrite H; clear H
           end.
    cbv zeta. rewrite Hget, Herr. reflexivity.
Qed.

(** C7.  A run that completes returns [success: true], the hash that
    [executeSwap] obtained from the custody service for the transaction of the
    quote reply, the two token addresses, the locally converted sell amount
    and the buy amount read from the reply.  In the end-to-end scenario the
    result is [{success: true, transactionHash: "0xabc", quote: {sellAmount:
    "1000000000000000000", ...}}]. *)
Theorem successful_swap_result (isAddress : string -> bool) (w : World)
    (r : SwapRequest) (t : list Effect) (res : SwapResult) :
  swapTokenBebop isAddress w r = (t, Ok res) ->
  (exists wid ft tt amt ch v url p d rt,
     walletId r = Some wid /\ fromToken r = Some ft /\ toToken r = Some tt
     /\ amount r = Some amt /\ fromChain r = Some ch
     /\ Ethers.parseEther amt = Some v
     /\ In (HttpGet url p) t /\ axios_get w url p = Ok d /\ tx d = Some rt
     /\ result (executeSwap w wid (Some rt) ch) = Ok (transactionHash res)
     /\ success res = true
     /\ quote res = {| qs_fromToken := ft; qs_toToken := tt;
                       sellAmount := Js.string_of_Z v;
                       buyAmount := buyAmount (quote res) |}
     /\ reply_buyAmount d = Some (buyAmount (quote res)))
  /\ swapTokenBebop Scenario.address_shape Scenario.mock Scenario.request
     = ([WalletsGet "w1";
         HttpGet "https://api.bebop.xyz/pmm/base/v3/quote"
           (Scenario.quote_params "1000000000000000000" false);
         WalletRpc Scenario.settlement],
        Ok {| success := true;
              transactionHash := Some "0xabc";
              quote := {| qs_fromToken := Scenario.WETH;
                          qs_toToken := Scenario.USDC;
                          sellAmount := "1000000000000000000";
                          buyAmount := Some "2500000000" |} |}).
Proof.
  intros Hrun. split; [|vm_compute; reflexivity].
  run_cases isAddress w r; [discriminate|].
  apply first_rejection_None in Heqo as (Hp & _).
  apply required_present_fields in Hp as (Hw & Hf & Ht & Ha & Hc).
  exits; simplify_eq.
  do 10 eexists.
  repeat (split; [eassumption|]).
  split; [right; left; reflexivity|].
  split; [eassumption|]. split; [eassumption|].
  rewrite executeSwap_unfold. cbv zeta. cbn [result snd].
  match goal with
  | H : walletApi_rpc _ _ = Ok _ |- _ => rewrite H
  end.
  repeat split. assumption.
Qed.

(** C9.  The sell amount of a returned result is the decimal rendering of
    [parseEther] of the request's amount.  Whatever the collaborators answer
    (a sell amount in the venue's reply included), two completed runs of one
    request return the same sell amount. *)
Theorem sell_amount_is_local (isAddress : string -> bool) (w1 w2 : World)
    (r : SwapRequest) (t1 t2 : list Effect) (res1 res2 : SwapResult) :
  swapTokenBebop isAddress w1 r = (t1, Ok res1) ->
  swapTokenBebop isAddress w2 r = (t2, Ok res2) ->
  (exists amt v,
     amount r = Some amt /\ Ethers.parseEther amt = Some v
     /\ sellAmount (quote res1) = Js.string_of_Z v)
  /\ sellAmount (quote res1) = sellAmount (quote res2).
Proof.
  intros H1 H2.
  rewrite swapTokenBebop_unfold in H1, H2.
  destruct (first_rejection isAddress r) eqn:Hrej; [discriminate|].
  apply first_rejection_None in Hrej as (Hp & _).
  apply required_present_fields in Hp as (_ & _ & _ & Ha & _).
  rewrite pipeline_unfold in H1, H2. cbv zeta in H1, H2.
  destruct (Ethers.parseEther (str_of (amount r))) as [v|] eqn:Hv.
  - exits; simplify_eq. split; [|reflexivity].
    eexists _, v. repeat split; eassumption.
  - exits; discriminate.
Qed.

Lemma first_rejection_gasless (isAddress : string -> bool) (g : option bool)
    (r : SwapRequest) :
  first_rejection isAddress (with_gasless g r) = first_rejection isAddress r.
Proof. reflexivity. Qed.

(** C10.  Take two runs of one request that differ in the gasless flag only,
    each against any collaborators, such that the two quote replies carry the
    same prepared transaction.  Whatever either run submits to the custody
    service is the same request: destination, call data and value of that
    transaction, with no sponsorship flag.  The flag shows in the [gasless]
    query parameter and nowhere else in the quote request. *)
Theorem gasless_payload_invariant (isAddress : string -> bool) (w1 w2 : World)
    (r : SwapRequest) (g1 g2 : option bool)
    (u1 u2 : string) (p1 p2 : QuoteParams) (d1 d2 : QuoteData)
    (req1 req2 : RpcRequest) :
  In (HttpGet u1 p1)
     (trace (swapTokenBebop isAddress w1 (with_gasless g1 r))) ->
  axios_get w1 u1 p1 = Ok d1 ->
  In (HttpGet u2 p2)
     (trace (swapTokenBebop isAddress w2 (with_gasless g2 r))) ->
  axios_get w2 u2 p2 = Ok d2 ->
  tx d1 = tx d2 ->
  In req1
     (rpc_calls (trace (swapTokenBebop isAddress w1 (with_gasless g1 r)))) ->
  In req2
     (rpc_calls (trace (swapTokenBebop isAddress w2 (with_gasless g2 r)))) ->
  req1 = req2
  /\ sponsor req1 = None
  /\ (exists rt,
        tx d1 = Some rt
        /\ transaction req1
           = {| tx_to := raw_to rt; tx_data := raw_data rt;
                tx_value := Js.or_default (raw_value rt) "0x0" |})
  /\ u1 = u2
  /\ qp_gasless p1 = Js.param_default false g1
  /\ qp_gasless p2 = Js.param_default false g2
  /\ (wallets_get w1 = wallets_get w2 ->
      with_qp_gasless false p1 = with_qp_gasless false p2).
Proof.
  intros Hq1 Hg1 Hq2 Hg2 Htx Hr1 Hr2.
  rewrite swapTokenBebop_unfold, first_rejection_gasless in Hq1, Hr1, Hq2, Hr2.
  destruct (first_rejection isAddress r); [destruct Hq1|].
  cbn [with_gasless walletId fromToken toToken amount fromChain gasless]
    in Hq1, Hr1, Hq2, Hr2.
  rewrite pipeline_unfold in Hq1, Hr1, Hq2, Hr2.
  cbv zeta in Hq1, Hr1, Hq2, Hr2.
  destruct (getChainName (chain_of (fromChain r))) as [name|e];
    [|exits; cbn in Hq1; intuition discriminate].
  destruct (Ethers.parseEther (str_of (amount r))) as [v|];
    [|exits; cbn in Hq1; intuition discriminate].
  destruct (wallets_get w1 _) as [wal1|e] eqn:Hw1;
    [|cbn in Hq1; intuition discriminate].
  destruct (wallets_get w2 _) as [wal2|e] eqn:Hw2;
    [|cbn in Hq2; intuition discriminate].
  assert (Hp1 : u1 = quote_url name
                /\ p1 = quote_params (address wal1)
                          (str_of (fromToken r))
                          (str_of (toToken r)) (Js.string_of_Z v)
                          (Js.param_default false g1)).
  { clear Hr1 Hq2 Hr2.
    exits; cbn [trace fst In] in Hq1;
      intuition (try discriminate); simplify_eq; reflexivity. }
  assert (Hp2 : u2 = quote_url name
                /\ p2 = quote_params (address wal2)
                          (str_of (fromToken r))
                          (str_of (toToken r)) (Js.string_of_Z v)
                          (Js.param_default false g2)).
  { clear Hr1 Hq1 Hr2.
    exits; cbn [trace fst In] in Hq2;
      intuition (try discriminate); simplify_eq; reflexivity. }
  destruct Hp1 as [-> ->], Hp2 as [-> ->].
  rewrite Hg1 in Hr1. rewrite Hg2 in Hr2. clear Hq1 Hq2.
  assert (Hs1 : exists rt, tx d1 = Some rt
                  /\ req1 = settlement_request (str_of (walletId r))
                              rt (chain_of (fromChain r))).
  { clear Hr2.
    exits; cbn [trace fst In rpc_calls] in Hr1;
      intuition (try discriminate); simplify_eq; eauto. }
  assert (Hs2 : exists rt, tx d2 = Some rt
                  /\ req2 = settlement_request (str_of (walletId r))
                              rt (chain_of (fromChain r))).
  { clear Hr1.
    exits; cbn [trace fst In rpc_calls] in Hr2;
      intuition (try discriminate); simplify_eq; eauto. }
  destruct Hs1 as (rt1 & Ht1 & ->), Hs2 as (rt2 & Ht2 & ->).
  assert (rt1 = rt2) as -> by congruence.
  split; [reflexivity|]. split; [reflexivity|].
  split; [exists rt2; split; [assumption|reflexivity]|].
  split; [reflexivity|]. split; [reflexivity|]. split; [reflexivity|].
  intros Hsame. rewrite Hsame in Hw1.
  assert (wal1 = wal2) as -> by congruence.
  reflexivity.
Qed.

(** C2.  The [sell_amounts] parameter of any quote request a run sends is
    [parseUnits] of the request's amount with the constant 18, printed in
    decimal; no property of the sell token enters it.  On [whole.frac] with at
    most 18 fraction digits that is [whole * 10^18 + frac * 10^(18 - |frac|)];
    ["1.5"] gives ["1500000000000000000"], also when the token sold is USDC. *)
Theorem sell_amount_assumes_18_decimals (isAddress : string -> bool)
    (w : World) (r : SwapRequest) (url : string) (p : QuoteParams) :
  In (HttpGet url p) (trace (swapTokenBebop isAddress w r)) ->
  (exists amt v,
     amount r = Some amt /\ Ethers.parseUnits amt 18 = Some v
     /\ sell_amounts p = Js.string_of_Z v)
  /\ (forall whole frac : string,
        Ethers.all_digits whole = true -> Ethers.all_digits frac = true ->
        (String.length frac <= 18)%nat ->
        (0 < String.length whole + String.length frac)%nat ->
        Ethers.digits_value 0 whole * 10 ^ 18
          + Ethers.digits_value 0 frac
            * 10 ^ Z.of_nat (18 - String.length frac) < 2 ^ 511 ->
        Ethers.parseEther (whole +:+ "." +:+ frac)
        = Some (Ethers.digits_value 0 whole * 10 ^ 18
                + Ethers.digits_value 0 frac
                  * 10 ^ Z.of_nat (18 - String.length frac)))
  /\ Js.string_of_Z <$> Ethers.parseEther "1.5" = Some "1500000000000000000"
  /\ quote_calls (trace (swapTokenBebop Scenario.address_shape Scenario.mock
                           Scenario.sell_usdc))
     = [("https://api.bebop.xyz/pmm/base/v3/quote",
         {| buy_tokens := Scenario.WETH; sell_tokens := Scenario.USDC;
            sell_amounts := "1500000000000000000";
            taker_address := Some Scenario.taker; qp_gasless := false;
            approval_type := "Standard" |})].
Proof.
  intros Hin. split; [|split; [|split; vm_compute; reflexivity]].
  - run_cases isAddress w r; [destruct Hin|].
    apply first_rejection_None in Heqo as (Hp & _).
    apply required_present_fields in Hp as (_ & _ & _ & Ha & _).
    destruct (Ethers.parseEther (str_of (amount r))) as [v|] eqn:Hv.
    + exists (str_of (amount r)), v.
      split; [exact Ha|]. split; [exact Hv|].
      exits; cbn [trace fst In] in Hin;
        intuition (try discriminate); simplify_eq; reflexivity.
    + exfalso. exits; cbn [trace fst In] in Hin; intuition discriminate.
  - intros whole frac Hw Hf Hlen Hpos Hbound.
    apply (EthersFacts.parseUnits_decimal whole frac 18 Hw Hf Hlen Hpos Hbound).
Qed.

Lemma swapTokenBebop_skipApproval (isAddress : string -> bool) (w : World)
    (r : SwapRequest) (b : option bool) :
  swapTokenBebop isAddress w (with_skipApproval b r)
  = swapTokenBebop isAddress w r.
Proof. rewrite !swapTokenBebop_unfold. reflexivity. Qed.

(** C1 (defect in the script).  The approval step of [swapTokenBebop] sends
    nothing whatever the skip-approval flag says: changing the flag never
    changes a run, a run holds at most one custody submission (the settlement)
    and no pause.  With skip-approval false the scenario's trace is lookup,
    quote, settlement; the approval with the unlimited allowance and the
    three-second pause exist only in [ensureTokenApproval], which is not
    called. *)
Theorem approval_step_sends_nothing (isAddress : string -> bool) (w : World)
    (r : SwapRequest) (b : option bool) :
  swapTokenBebop isAddress w (with_skipApproval b r)
  = swapTokenBebop isAddress w r
  /\ (length (rpc_calls (trace (swapTokenBebop isAddress w r))) <= 1)%nat
  /\ forallb is_network_call (trace (swapTokenBebop isAddress w r)) = true
  /\ trace (swapTokenBebop Scenario.address_shape Scenario.mock
              (with_skipApproval (Some false) Scenario.request))
     = [WalletsGet "w1";
        HttpGet "https://api.bebop.xyz/pmm/base/v3/quote"
          (Scenario.quote_params "1000000000000000000" false);
        WalletRpc Scenario.settlement]
  /\ ensureTokenApproval Scenario.mock "w1" Scenario.WETH "1" 8453
       (Some Scenario.taker)
     = ([WalletRpc Scenario.approval; Sleep 3000], Ok (Some "0xabc")).
Proof.
  split; [apply swapTokenBebop_skipApproval|].
  split; [|split; [|split; vm_compute; reflexivity]].
  - run_cases isAddress w r; [cbn; lia|].
    exits; cbn; lia.
  - run_cases isAddress w r; [reflexivity|].
    exits; reflexivity.
Qed.

(** ** The claims at concrete inputs *)

(** C2 at the request that sells 1.5 USDC. *)
Lemma sell_amount_assumes_18_decimals_witness :
  In (HttpGet Instances.base_url Instances.usdc_params)
     (trace (swapTokenBebop Scenario.address_shape Scenario.mock
               Scenario.sell_usdc))
  /\ exists amt v,
       amount Scenario.sell_usdc = Some amt
       /\ Ethers.parseUnits amt 18 = Some v
       /\ sell_amounts Instances.usdc_params = Js.string_of_Z v.
Proof.
  assert (H : In (HttpGet Instances.base_url Instances.usdc_params)
                (trace (swapTokenBebop Scenario.address_shape Scenario.mock
                          Scenario.sell_usdc))).
  { vm_compute. right. left. reflexivity. }
  split; [exact H|].
  exact (proj1 (sell_amount_assumes_18_decimals Scenario.address_shape
                  Scenario.mock Scenario.sell_usdc Instances.base_url
                  Instances.usdc_params H)).
Defined.

(** C3, as stated, fails: without a wallet identifier the cross-chain request
    is rejected with the missing-wallet error, and with destination chain 0
    the request is not rejected at all. *)
Lemma cross_chain_counterexample :
  (toChain Scenario.cross_chain_no_wallet = Some 1
   /\ fromChain Scenario.cross_chain_no_wallet = Some 8453
   /\ swapTokenBebop Scenario.address_shape Scenario.mock
        Scenario.cross_chain_no_wallet
      = ([], Throw WalletIdRequired)
   /\ WalletIdRequired <> SameChainOnly)
  /\ (toChain Scenario.cross_chain_zero = Some 0
      /\ fromChain Scenario.cross_chain_zero = Some 8453
      /\ swapTokenBebop Scenario.address_shape Scenario.mock
           Scenario.cross_chain_zero
         = (Instances.scenario_trace, Ok Instances.scenario_result)).
Proof.
  split.
  - repeat split; try (vm_compute; reflexivity). discriminate.
  - repeat split; vm_compute; reflexivity.
Qed.

(** C3, amended, at a well-formed request from Base to Ethereum, and at the
    same request without wallet identifier. *)
Lemma cross_chain_rejected_witness :
  (toChain Scenario.cross_chain = Some 1 /\ 1 <> 0
   /\ fromChain Scenario.cross_chain <> Some 1
   /\ swapTokenBebop Scenario.address_shape Scenario.mock Scenario.cross_chain
      = ([], Throw SameChainOnly))
  /\ (toChain Scenario.cross_chain_no_wallet = Some 1
      /\ fromChain Scenario.cross_chain_no_wallet <> Some 1
      /\ swapTokenBebop Scenario.address_shape Scenario.mock
           Scenario.cross_chain_no_wallet
         = ([], Throw WalletIdRequired)).
Proof.
  assert (H1 : toChain Scenario.cross_chain = Some 1) by reflexivity.
  assert (H2 : 1 <> 0) by lia.
  assert (H3 : fromChain Scenario.cross_chain <> Some 1) by (simpl; congruence).
  assert (H4 : toChain Scenario.cross_chain_no_wallet = Some 1)
    by reflexivity.
  assert (H5 : fromChain Scenario.cross_chain_no_wallet <> Some 1)
    by (simpl; congruence).
  split.
  - repeat (split; [assumption|]).
    destruct (cross_chain_rejected Scenario.address_shape Scenario.mock
                Scenario.cross_chain 1 H1 H2 H3)
      as (e & Hrun & _ & Hsame & _).
    rewrite Hrun, (Hsame eq_refl). reflexivity.
  - repeat (split; [assumption|]).
    destruct (cross_chain_rejected Scenario.address_shape Scenario.mock
                Scenario.cross_chain_no_wallet 1 H4 H2 H5)
      as (e & Hrun & _ & _ & Hwallet & _).
    rewrite Hrun, (Hwallet eq_refl). reflexivity.
Defined.

(** C4 at Base (supported) and at Goerli, chain 5 (not in the table). *)
Lemma chain_name_table_witness :
  (exists name,
     getChainName 8453 = Ok name /\ chains !! 8453 = Some name
     /\ forall name', getChainName 8453 = Ok name' -> name' = name)
  /\ getBebopQuote Scenario.mock None Scenario.WETH Scenario.USDC "1" 5 false
       EmptyString EmptyString
     = ([], Throw (UnsupportedChain 5)).
Proof.
  split.
  - apply (proj1 (chain_name_table Scenario.mock None Scenario.WETH
                    Scenario.USDC "1" false EmptyString EmptyString 8453)).
    simpl. right. left. reflexivity.
  - apply (proj1 (proj2 (chain_name_table Scenario.mock None Scenario.WETH
                           Scenario.USDC "1" false EmptyString EmptyString 5))).
    simpl. lia.
Defined.

(** C5 against the venue that answers [{error: "InsufficientLiquidity"}]. *)
Lemma quote_error_stops_swap_witness :
  swapTokenBebop Scenario.address_shape Scenario.mock_quote_error
    Scenario.request
  = ([WalletsGet "w1";
      HttpGet Instances.base_url
        (Scenario.quote_params "1000000000000000000" false)],
     Throw (BebopQuoteError "InsufficientLiquidity"))
  /\ rpc_calls (trace (swapTokenBebop Scenario.address_shape
                         Scenario.mock_quote_error Scenario.request)) = [].
Proof.
  assert (Hin : In (HttpGet Instances.base_url
                      (Scenario.quote_params "1000000000000000000" false))
                  (trace (swapTokenBebop Scenario.address_shape
                            Scenario.mock_quote_error Scenario.request))).
  { vm_compute. right. left. reflexivity. }
  assert (Hget : axios_get Scenario.mock_quote_error Instances.base_url
                   (Scenario.quote_params "1000000000000000000" false)
                 = Ok Instances.error_reply) by reflexivity.
  assert (Herr : Js.truthy_str (error Instances.error_reply) = true)
    by reflexivity.
  pose proof (quote_error_stops_swap Scenario.address_shape
                Scenario.mock_quote_error Scenario.request _ _ _
                Hin Hget Herr) as (Hrun & Hrpc & _).
  split; [exact Hrun|exact Hrpc].
Defined.

(** C6 at a sell token of six characters. *)
Lemma invalid_request_rejected_witness :
  malformed Scenario.address_shape (fromToken Scenario.short_token) = true
  /\ exists e,
       swapTokenBebop Scenario.address_shape Scenario.mock Scenario.short_token
       = ([], Throw e)
       /\ is_validation_error e = true.
Proof.
  assert (H : malformed Scenario.address_shape
                (fromToken Scenario.short_token) = true) by reflexivity.
  split; [exact H|].
  apply (invalid_request_rejected Scenario.address_shape Scenario.mock
           Scenario.short_token).
  right. left. exact H.
Defined.

(** C7 at the end-to-end scenario. *)
Lemma successful_swap_result_witness :
  swapTokenBebop Scenario.address_shape Scenario.mock Scenario.request
  = (Instances.scenario_trace, Ok Instances.scenario_result)
  /\ exists wid ch rt,
       walletId Scenario.request = Some wid
       /\ fromChain Scenario.request = Some ch
       /\ result (executeSwap Scenario.mock wid (Some rt) ch)
          = Ok (transactionHash Instances.scenario_result)
       /\ success Instances.scenario_result = true.
Proof.
  assert (H : swapTokenBebop Scenario.address_shape Scenario.mock
                Scenario.request
              = (Instances.scenario_trace, Ok Instances.scenario_result))
    by (vm_compute; reflexivity).
  split; [exact H|].
  destruct (proj1 (successful_swap_result Scenario.address_shape
                     Scenario.mock Scenario.request _ _ H))
    as (wid & ft & tt & amt & ch & v & url & p & d & rt & Hw & _ & _ & _ & Hc
        & _ & _ & _ & _ & Hex & Hs & _).
  exists wid, ch, rt. repeat split; assumption.
Defined.

(** C9 with two venues that report different sell amounts. *)
Lemma sell_amount_is_local_witness :
  sellAmount (quote Instances.scenario_result) = "1000000000000000000"
  /\ (exists amt v,
        amount Scenario.request = Some amt /\ Ethers.parseEther amt = Some v
        /\ sellAmount (quote Instances.scenario_result) = Js.string_of_Z v).
Proof.
  assert (H1 : swapTokenBebop Scenario.address_shape Scenario.mock
                 Scenario.request
               = (Instances.scenario_trace, Ok Instances.scenario_result))
    by (vm_compute; reflexivity).
  assert (H2 : swapTokenBebop Scenario.address_shape
                 Scenario.mock_other_sell_amount Scenario.request
               = (Instances.scenario_trace, Ok Instances.scenario_result))
    by (vm_compute; reflexivity).
  split; [reflexivity|].
  exact (proj1 (sell_amount_is_local Scenario.address_shape Scenario.mock
                  Scenario.mock_other_sell_amount Scenario.request _ _ _ _
                  H1 H2)).
Defined.

(** C10 at the scenario with the gasless flag off and on. *)
Lemma gasless_payload_invariant_witness :
  rpc_calls (trace (swapTokenBebop Scenario.address_shape Scenario.mock
                      (with_gasless (Some false) Scenario.request)))
  = [Scenario.settlement]
  /\ rpc_calls (trace (swapTokenBebop Scenario.address_shape Scenario.mock
                         (with_gasless (Some true) Scenario.request)))
     = [Scenario.settlement]
  /\ sponsor Scenario.settlement = None
  /\ with_qp_gasless false (Scenario.quote_params "1000000000000000000" false)
     = with_qp_gasless false (Scenario.quote_params "1000000000000000000" true).
Proof.
  assert (Hq1 : In (HttpGet Instances.base_url
                      (Scenario.quote_params "1000000000000000000" false))
                  (trace (swapTokenBebop Scenario.address_shape Scenario.mock
                            (with_gasless (Some false) Scenario.request)))).
  { vm_compute. right. left. reflexivity. }
  assert (Hq2 : In (HttpGet Instances.base_url
                      (Scenario.quote_params "1000000000000000000" true))
                  (trace (swapTokenBebop Scenario.address_shape Scenario.mock
                            (with_gasless (Some true) Scenario.request)))).
  { vm_compute. right. left. reflexivity. }
  assert (Hr1 : In Scenario.settlement
                  (rpc_calls
                     (trace (swapTokenBebop Scenario.address_shape Scenario.mock
                               (with_gasless (Some false) Scenario.request))))).
  { vm_compute. left. reflexivity. }
  assert (Hr2 : In Scenario.settlement
                  (rpc_calls
                     (trace (swapTokenBebop Scenario.address_shape Scenario.mock
                               (with_gasless (Some true) Scenario.request))))).
  { vm_compute. left. reflexivity. }
  pose proof (gasless_payload_invariant Scenario.address_shape Scenario.mock
                Scenario.mock Scenario.request (Some false) (Some true)
                Instances.base_url Instances.base_url _ _
                Instances.good_reply Instances.good_reply _ _
                Hq1 eq_refl Hq2 eq_refl eq_refl Hr1 Hr2)
    as (_ & Hsp & _ & _ & _ & _ & Hsame).
  split; [vm_compute; reflexivity|]. split; [vm_compute; reflexivity|].
  split; [exact Hsp|]. apply Hsame. reflexivity.
Defined.

(** ** Further properties of the swap script *)

Lemma first_rejection_valid (isAddress : string -> bool) (r : SwapRequest) :
  first_rejection isAddress r = None <-> valid_request isAddress r = true.
Proof.
  split.
  - intros H. apply first_rejection_None in H as (Hp & Hf & Ht & Hc).
    unfold valid_request. rewrite Hp, Hf, Ht, Hc. reflexivity.
  - unfold valid_request. intros H.
    apply andb_prop in H as [H Ht]. apply andb_prop in H as [H Hf].
    apply andb_prop in H as [Hp Hc].
    apply negb_true_iff in Ht, Hf, Hc.
    unfold first_rejection. unfold required_present in Hp.
    repeat (apply andb_prop in Hp as [Hp ?]).
    repeat match goal with
           | H : _ = true |- _ => rewrite H; clear H
           end.
    cbn [negb]. rewrite Hc, Hf, Ht. reflexivity.
Qed.

Lemma valid_request_fields (isAddress : string -> bool) (r : SwapRequest) :
  valid_request isAddress r = true ->
  walletId r = Some (str_of (walletId r))
  /\ fromToken r = Some (str_of (fromToken r))
  /\ toToken r = Some (str_of (toToken r))
  /\ amount r = Some (str_of (amount r))
  /\ fromChain r = Some (chain_of (fromChain r)).
Proof.
  intros H. apply first_rejection_valid, first_rejection_None in H as (Hp & _).
  apply required_present_fields, Hp.
Qed.

(** A valid request runs the three stages on its own field values. *)
Lemma valid_request_pipeline (isAddress : string -> bool) (w : World)
    (r : SwapRequest) (wid ft tt amt : string) (ch : Z) :
  valid_request isAddress r = true ->
  walletId r = Some wid -> fromToken r = Some ft -> toToken r = Some tt ->
  amount r = Some amt -> fromChain r = Some ch ->
  swapTokenBebop isAddress w r
  = pipeline w wid ft tt amt ch (Js.param_default false (gasless r)).
Proof.
  intros Hv Hw Hf Ht Ha Hc.
  pose proof (valid_request_fields isAddress r Hv) as (Hw' & Hf' & Ht' & Ha' & Hc').
  rewrite swapTokenBebop_unfold.
  apply first_rejection_valid in Hv. rewrite Hv.
  congruence.
Qed.

(** X1.  The validation block rejects exactly the requests that fail one of
    its checks: a valid request always begins with the custody lookup of its
    wallet, any other request ends with a validation error and an empty
    trace. *)
Theorem validation_decides_first_call (isAddress : string -> bool) (w : World)
    (r : SwapRequest) :
  (valid_request isAddress r = true ->
   exists wid rest,
     walletId r = Some wid
     /\ trace (swapTokenBebop isAddress w r) = WalletsGet wid :: rest)
  /\ (valid_request isAddress r = false ->
      exists e,
        swapTokenBebop isAddress w r = ([], Throw e)
        /\ is_validation_error e = true).
Proof.
  split; intros Hv.
  - pose proof (valid_request_fields isAddress r Hv) as (Hw & _).
    apply first_rejection_valid in Hv.
    rewrite swapTokenBebop_unfold, Hv, pipeline_unfold. cbv zeta.
    exists (str_of (walletId r)).
    exits; cbn [trace fst]; eexists; (split; [exact Hw|reflexivity]).
  - rewrite swapTokenBebop_unfold.
    destruct (first_rejection isAddress r) as [e|] eqn:Hrej.
    + exists e. split; [reflexivity|].
      eapply first_rejection_is_validation, Hrej.
    + apply first_rejection_valid in Hrej. congruence.
Qed.

(** X2.  Calls are made in pipeline order and none is repeated: the trace of
    any run is nothing, or the lookup, or lookup and quote request, or
    lookup, quote request and one submission. *)
Theorem calls_follow_pipeline_order (isAddress : string -> bool) (w : World)
    (r : SwapRequest) :
  let t := trace (swapTokenBebop isAddress w r) in
  let wid := str_of (walletId r) in
  t = []
  \/ t = [WalletsGet wid]
  \/ (exists url p, t = [WalletsGet wid; HttpGet url p])
  \/ (exists url p req, t = [WalletsGet wid; HttpGet url p; WalletRpc req]).
Proof.
  cbv zeta.
  run_cases isAddress w r; [left; reflexivity|].
  exits; cbn [trace fst]; eauto 8.
Qed.

(** X3.  When the custody service rejects the wallet lookup of a valid
    request, the run ends there with that very error: no quote is requested
    and nothing is submitted. *)
Theorem lookup_failure_propagates (isAddress : string -> bool) (w : World)
    (r : SwapRequest) (wid : string) (e : SwapError) :
  valid_request isAddress r = true ->
  walletId r = Some wid ->
  wallets_get w wid = Throw e ->
  swapTokenBebop isAddress w r = ([WalletsGet wid], Throw e).
Proof.
  intros Hv Hw He.
  pose proof (valid_request_fields isAddress r Hv) as (Hw' & _).
  assert (wid = str_of (walletId r)) as -> by congruence.
  apply first_rejection_valid in Hv.
  rewrite swapTokenBebop_unfold, Hv, pipeline_unfold, He. reflexivity.
Qed.

(** X4.  When the venue's client rejects the quote request (a failed
    connection or a non-success status), the run ends with that very error
    after lookup and request; nothing is submitted. *)
Theorem venue_rejection_propagates (isAddress : string -> bool) (w : World)
    (r : SwapRequest) (url : string) (p : QuoteParams) (e : SwapError) :
  In (HttpGet url p) (trace (swapTokenBebop isAddress w r)) ->
  axios_get w url p = Throw e ->
  swapTokenBebop isAddress w r
  = ([WalletsGet (str_of (walletId r)); HttpGet url p], Throw e).
Proof.
  intros Hin Hget.
  run_cases isAddress w r; [destruct Hin|].
  exits; cbn [trace fst In] in Hin;
    intuition (try discriminate); simplify_eq; congruence.
Qed.

(** X5.  When the custody service rejects the settlement, the run ends with
    that very error; the trace is lookup, quote request and that one
    submission, which is not repeated. *)
Theorem submission_failure_propagates (isAddress : string -> bool) (w : World)
    (r : SwapRequest) (req : RpcRequest) (e : SwapError) :
  In (WalletRpc req) (trace (swapTokenBebop isAddress w r)) ->
  walletApi_rpc w req = Throw e ->
  exists url p,
    swapTokenBebop isAddress w r
    = ([WalletsGet (str_of (walletId r)); HttpGet url p; WalletRpc req],
       Throw e).
Proof.
  intros Hin Hrpc.
  run_cases isAddress w r; [destruct Hin|].
  exits; cbn [trace fst In] in Hin;
    intuition (try discriminate); simplify_eq;
    try congruence; do 2 eexists; f_equal; congruence.
Qed.

Lemma getChainName_supported (chainId : Z) :
  In chainId supported_chains ->
  exists name, getChainName chainId = Ok name /\ chains !! chainId = Some name.
Proof.
  intros Hin. simpl in Hin.
  destruct Hin as [<-|[<-|[<-|[<-|[<-|[<-|[]]]]]]];
    eexists; split; vm_compute; reflexivity.
Qed.

(** X6.  An unsupported source chain is noticed only inside the quote stage:
    a valid request on such a chain still makes the custody lookup, then ends
    with the unsupported-chain error; no quote is requested and nothing is
    submitted. *)
Theorem unsupported_chain_after_lookup (isAddress : string -> bool)
    (w : World) (r : SwapRequest) (wid : string) (ch : Z) (wal : Wallet) :
  valid_request isAddress r = true ->
  walletId r = Some wid -> fromChain r = Some ch ->
  wallets_get w wid = Ok wal ->
  ~ In ch supported_chains ->
  swapTokenBebop isAddress w r = ([WalletsGet wid], Throw (UnsupportedChain ch)).
Proof.
  intros Hv Hw Hc Hget Hout.
  pose proof (valid_request_fields isAddress r Hv) as (Hw' & Hf & Ht & Ha & Hc').
  rewrite (valid_request_pipeline isAddress w r _ _ _ _ _ Hv Hw Hf Ht Ha Hc).
  rewrite pipeline_unfold, Hget, (getChainName_unsupported ch Hout).
  reflexivity.
Qed.

(** X7.  An amount that [parseEther] refuses is noticed after the custody
    lookup and the chain check, before the quote request: the run ends with
    the invalid-amount error and only the lookup in its trace. *)
Theorem unparseable_amount_after_lookup (isAddress : string -> bool)
    (w : World) (r : SwapRequest) (wid amt : string) (ch : Z) (wal : Wallet) :
  valid_request isAddress r = true ->
  walletId r = Some wid -> amount r = Some amt -> fromChain r = Some ch ->
  wallets_get w wid = Ok wal ->
  In ch supported_chains ->
  Ethers.parseEther amt = None ->
  swapTokenBebop isAddress w r = ([WalletsGet wid], Throw (InvalidAmount amt)).
Proof.
  intros Hv Hw Ha Hc Hget Hin Hparse.
  pose proof (valid_request_fields isAddress r Hv) as (_ & Hf & Ht & _ & _).
  rewrite (valid_request_pipeline isAddress w r _ _ _ _ _ Hv Hw Hf Ht Ha Hc).
  destruct (getChainName_supported ch Hin) as (name & Hname & _).
  rewrite pipeline_unfold, Hget, Hname, Hparse. reflexivity.
Qed.

(** X8.  A quote reply without a prepared transaction never leads to a
    submission: whatever else the reply holds, the run fails and no custody
    submission is in its trace. *)
Theorem reply_without_transaction_not_submitted (isAddress : string -> bool)
    (w : World) (r : SwapRequest) (url : string) (p : QuoteParams)
    (d : QuoteData) :
  In (HttpGet url p) (trace (swapTokenBebop isAddress w r)) ->
  axios_get w url p = Ok d ->
  tx d = None ->
  rpc_calls (trace (swapTokenBebop isAddress w r)) = []
  /\ exists e, result (swapTokenBebop isAddress w r) = Throw e.
Proof.
  intros Hin Hget Htx.
  run_cases isAddress w r; [destruct Hin|].
  exits; cbn [trace result fst snd In rpc_calls] in *;
    intuition (try discriminate); simplify_eq; eauto; congruence.
Qed.

(** X9.  A completed run made exactly three calls: the lookup of the
    request's wallet, one quote request for the address that lookup returned
    with the two token addresses passed on as given, and one submission for
    that wallet on the request's chain. *)
Theorem completed_run_makes_three_calls (isAddress : string -> bool)
    (w : World) (r : SwapRequest) (t : list Effect) (res : SwapResult) :
  swapTokenBebop isAddress w r = (t, Ok res) ->
  exists wid ft tt ch wal url p req,
    walletId r = Some wid /\ fromToken r = Some ft /\ toToken r = Some tt
    /\ fromChain r = Some ch
    /\ t = [WalletsGet wid; HttpGet url p; WalletRpc req]
    /\ wallets_get w wid = Ok wal
    /\ taker_address p = address wal
    /\ sell_tokens p = ft /\ buy_tokens p = tt
    /\ rpc_walletId req = wid /\ caip2 req = getCAIP2 ch.
Proof.
  intros Hrun.
  run_cases isAddress w r; [discriminate|].
  apply first_rejection_None in Heqo as (Hp & _).
  apply required_present_fields in Hp as (Hw & Hf & Ht & _ & Hc).
  exits; simplify_eq.
  do 8 eexists.
  repeat (split; [eassumption|]).
  split; [reflexivity|]. split; [eassumption|]. repeat split.
Qed.

Lemma first_rejection_same_chain (isAddress : string -> bool)
    (r : SwapRequest) :
  first_rejection isAddress r = None ->
  first_rejection isAddress (with_toChain None r) = None.
Proof.
  unfold first_rejection.
  cbn [with_toChain walletId fromToken toToken amount fromChain toChain].
  destruct (negb (Js.truthy_str (walletId r))); [discriminate|].
  destruct (negb (Js.truthy_str (fromToken r))); [discriminate|].
  destruct (negb (Js.truthy_str (toToken r))); [discriminate|].
  destruct (negb (Js.truthy_str (amount r))); [discriminate|].
  destruct (negb (Js.truthy_num (fromChain r))); [discriminate|].
  destruct (_ && negb (bool_decide (toChain r = fromChain r)));
    [discriminate|].
  cbn [Js.truthy_num andb]. intros H. exact H.
Qed.

(** X10.  A destination chain that passes validation (equal to the source
    chain, or zero) is not used afterwards: the run is the one of the same
    request without destination chain. *)
Theorem accepted_destination_chain_unused (isAddress : string -> bool)
    (w : World) (r : SwapRequest) :
  valid_request isAddress r = true ->
  swapTokenBebop isAddress w (with_toChain None r)
  = swapTokenBebop isAddress w r.
Proof.
  intros Hv. apply first_rejection_valid in Hv.
  rewrite !swapTokenBebop_unfold.
  rewrite (first_rejection_same_chain isAddress r Hv), Hv. reflexivity.
Qed.

(** ** Further facts about amounts and identifiers *)

Module AmountFacts.
Import Ethers.

Lemma drop_str_short (n : nat) (s : string) :
  (String.length s <= n)%nat -> drop_str n s = EmptyString.
Proof.
  revert n. induction s as [|c s IH]; intros n Hn.
  - destruct n; reflexivity.
  - destruct n as [|n]; simpl in *; [lia|]. apply IH. lia.
Qed.

Lemma all_digits_not_minus (s : string) :
  all_digits s = true -> skip_char "-" s = (false, s).
Proof.
  destruct s as [|c s]; [reflexivity|]. cbn [all_digits].
  intros H. apply andb_prop in H as [Hc _].
  unfold skip_char. rewrite (EthersFacts.digit_not_minus c Hc). reflexivity.
Qed.

Lemma uint_digits_acc (l : Decimal.uint) (acc : positive) :
  digits_value (Z.pos acc) (NilEmpty.string_of_uint l)
  = Z.pos (Pos.of_uint_acc l acc).
Proof.
  revert acc. induction l; intros acc; cbn [NilEmpty.string_of_uint
    digits_value Pos.of_uint_acc]; [reflexivity|..];
    rewrite <- IHl; f_equal; vm_compute digit_of; lia.
Qed.

Lemma uint_digits (l : Decimal.uint) :
  digits_value 0 (NilEmpty.string_of_uint l) = Z.of_N (Pos.of_uint l).
Proof.
  induction l; cbn [NilEmpty.string_of_uint digits_value Pos.of_uint];
    [reflexivity|exact IHl|..];
    apply (uint_digits_acc l).
Qed.

Lemma uint_all_digits (l : Decimal.uint) :
  all_digits (NilEmpty.string_of_uint l) = true.
Proof. induction l; simpl; auto. Qed.

(** Printing a non-negative integer gives digits only, and reading them
    gives the integer back. *)
Lemma string_of_Z_digits (v : Z) :
  0 <= v ->
  all_digits (Js.string_of_Z v) = true
  /\ digits_value 0 (Js.string_of_Z v) = v.
Proof.
  intros Hv. destruct v as [|p|p]; [split; reflexivity| |lia].
  unfold Js.string_of_Z. cbn [Z.to_int NilZero.string_of_int].
  unfold NilZero.string_of_uint.
  destruct (Pos.to_uint p) eqn:Hp;
    [exfalso; exact (DecimalPos.Unsigned.to_uint_nonnil p Hp)|..];
    rewrite <- Hp; (split; [apply uint_all_digits|]);
    rewrite uint_digits, DecimalPos.Unsigned.of_to; reflexivity.
Qed.

(** Printing is injective. *)
Lemma string_of_Z_inj (a b : Z) :
  Js.string_of_Z a = Js.string_of_Z b -> a = b.
Proof.
  unfold Js.string_of_Z. intros H.
  apply DecimalZ.to_int_inj.
  assert (Hnil : forall z, Z.to_int z <> Decimal.Pos Decimal.Nil
                           /\ Z.to_int z <> Decimal.Neg Decimal.Nil).
  { intros [|p|p]; split; cbn [Z.to_int]; try discriminate;
      intros [= Hp]; exact (DecimalPos.Unsigned.to_uint_nonnil p Hp). }
  pose proof (NilZero.isi (Z.to_int a) (proj1 (Hnil a)) (proj2 (Hnil a))) as Ha.
  pose proof (NilZero.isi (Z.to_int b) (proj1 (Hnil b)) (proj2 (Hnil b))) as Hb.
  rewrite H in Ha. congruence.
Qed.

Lemma append_inj_l (p a b : string) : p +:+ a = p +:+ b -> a = b.
Proof.
  induction p as [|c p IH]; intros H; [exact H|].
  apply IH. injection H as H. exact H.
Qed.

(** A sign in front of an amount that parses negates the result. *)
Lemma parseUnits_negative (s : string) (decimals : nat) (v : Z) :
  skip_char "-" s = (false, s) ->
  parseUnits s decimals = Some v -> 0 <= v ->
  parseUnits ("-" +:+ s) decimals = Some (- v).
Proof.
  intros Hs Hp Hv.
  change ("-" +:+ s) with (String "-" s).
  unfold parseUnits in *. rewrite Hs in Hp.
  change (skip_char "-" (String "-" s)) with (true, s).
  cbv beta iota in *.
  destruct (span_digits s) as [whole s2].
  destruct (skip_char "." s2) as [dot s3].
  destruct (span_digits s3) as [decimal s4].
  destruct (negb (String.eqb s4 EmptyString)); [discriminate|].
  destruct (_ =? 0)%nat; [discriminate|].
  cbv zeta in *.
  destruct (negb (all_zeros _)); [discriminate|].
  destruct (_ && _) eqn:Hb in Hp; [|discriminate].
  injection Hp as Hp. rewrite Hp.
  assert (0 < 2 ^ 511) by (apply Z.pow_pos_nonneg; lia).
  apply andb_prop in Hb as [Hlo Hhi]. rewrite Hp in Hlo, Hhi.
  apply Z.leb_le in Hlo. apply Z.ltb_lt in Hhi.
  destruct (Z.leb_spec (- 2 ^ 511) (- v)); [|lia].
  destruct (Z.ltb_spec (- v) (2 ^ 511)); [reflexivity|lia].
Qed.

(** A string of digits is an amount of that many whole units. *)
Lemma parseUnits_whole (whole : string) (decimals : nat) :
  all_digits whole = true -> whole <> EmptyString ->
  digits_value 0 whole * 10 ^ Z.of_nat decimals < 2 ^ 511 ->
  parseUnits whole decimals
  = Some (digits_value 0 whole * 10 ^ Z.of_nat decimals).
Proof.
  intros Hw Hne Hbound.
  unfold parseUnits.
  rewrite (all_digits_not_minus whole Hw).
  pose proof (EthersFacts.span_digits_app whole EmptyString Hw eq_refl) as Hspan.
  rewrite EthersFacts.append_empty_r in Hspan. rewrite Hspan.
  cbn [skip_char span_digits String.eqb negb String.length].
  destruct (Nat.eqb_spec (String.length whole + 0) 0) as [Hz|_].
  { destruct whole; [congruence|simpl in Hz; lia]. }
  rewrite Nat.sub_0_r.
  change (EmptyString +:+ zeros decimals) with (zeros decimals).
  assert (Hdrop : drop_str decimals (zeros decimals) = EmptyString).
  { rewrite <- (EthersFacts.length_zeros decimals) at 1.
    apply EthersFacts.drop_str_all. }
  assert (Htake : take_str decimals (zeros decimals) = zeros decimals).
  { rewrite <- (EthersFacts.length_zeros decimals) at 1.
    apply EthersFacts.take_str_all. }
  rewrite Hdrop, Htake. cbn [all_zeros negb].
  rewrite EthersFacts.digits_value_app, EthersFacts.digits_value_zeros.
  pose proof (EthersFacts.digits_value_nonneg whole 0 Hw (Z.le_refl 0)) as H0.
  assert (0 <= digits_value 0 whole * 10 ^ Z.of_nat decimals).
  { apply Z.mul_nonneg_nonneg; [exact H0|apply Z.pow_nonneg; lia]. }
  assert (0 < 2 ^ 511) by (apply Z.pow_pos_nonneg; lia).
  destruct (Z.leb_spec (- 2 ^ 511)
              (digits_value 0 whole * 10 ^ Z.of_nat decimals)); [|lia].
  destruct (Z.ltb_spec (digits_value 0 whole * 10 ^ Z.of_nat decimals)
              (2 ^ 511)); [reflexivity|lia].
Qed.

(** A string of digits too long for the fixed-point format is refused. *)
Lemma parseUnits_whole_overflow (whole : string) (decimals : nat) :
  all_digits whole = true -> whole <> EmptyString ->
  2 ^ 511 <= digits_value 0 whole * 10 ^ Z.of_nat decimals ->
  parseUnits whole decimals = None.
Proof.
  intros Hw Hne Hbound.
  unfold parseUnits.
  rewrite (all_digits_not_minus whole Hw).
  pose proof (EthersFacts.span_digits_app whole EmptyString Hw eq_refl) as Hspan.
  rewrite EthersFacts.append_empty_r in Hspan. rewrite Hspan.
  cbn [skip_char span_digits String.eqb negb String.length].
  destruct (Nat.eqb_spec (String.length whole + 0) 0) as [Hz|_].
  { destruct whole; [congruence|simpl in Hz; lia]. }
  rewrite Nat.sub_0_r.
  change (EmptyString +:+ zeros decimals) with (zeros decimals).
  assert (Hdrop : drop_str decimals (zeros decimals) = EmptyString).
  { rewrite <- (EthersFacts.length_zeros decimals) at 1.
    apply EthersFacts.drop_str_all. }
  assert (Htake : take_str decimals (zeros decimals) = zeros decimals).
  { rewrite <- (EthersFacts.length_zeros decimals) at 1.
    apply EthersFacts.take_str_all. }
  rewrite Hdrop, Htake. cbn [all_zeros negb].
  rewrite EthersFacts.digits_value_app, EthersFacts.digits_value_zeros.
  destruct (Z.ltb_spec (digits_value 0 whole * 10 ^ Z.of_nat decimals)
              (2 ^ 511)); [lia|].
  rewrite andb_false_r. reflexivity.
Qed.

(** A fraction with a digit other than zero beyond the last place is refused,
    not rounded. *)
Lemma parseUnits_excess_precision (whole frac : string) (decimals : nat) :
  all_digits whole = true -> all_digits frac = true ->
  all_zeros (drop_str decimals frac) = false ->
  parseUnits (whole +:+ "." +:+ frac) decimals = None.
Proof.
  intros Hw Hf Hz.
  assert (Hlen : (decimals < String.length frac)%nat).
  { destruct (Nat.lt_ge_cases decimals (String.length frac)) as [H|H];
      [exact H|].
    rewrite (drop_str_short decimals frac H) in Hz. discriminate. }
  unfold parseUnits.
  assert (Hsign : skip_char "-" (whole +:+ "." +:+ frac)
                  = (false, whole +:+ "." +:+ frac)).
  { destruct whole as [|c whole']; [reflexivity|].
    simpl in Hw. apply andb_prop in Hw as [Hc _].
    change (String c whole' +:+ "." +:+ frac)
      with (String c (whole' +:+ "." +:+ frac)).
    unfold skip_char. rewrite (EthersFacts.digit_not_minus c Hc).
    reflexivity. }
  rewrite Hsign.
  rewrite (EthersFacts.span_digits_app whole ("." +:+ frac) Hw) by reflexivity.
  change (skip_char "." ("." +:+ frac)) with (true, frac).
  pose proof (EthersFacts.span_digits_app frac EmptyString Hf eq_refl) as Hspan.
  rewrite EthersFacts.append_empty_r in Hspan. cbv beta iota. rewrite Hspan.
  cbn [String.eqb negb].
  destruct (Nat.eqb_spec (String.length whole + String.length frac) 0);
    [lia|].
  replace (decimals - String.length frac)%nat with 0%nat by lia.
  cbn [zeros]. rewrite EthersFacts.append_empty_r, Hz. reflexivity.
Qed.

End AmountFacts.

(** The sell amount of a quote request is the printed conversion of the
    request's amount. *)
Lemma quote_request_amount (isAddress : string -> bool) (w : World)
    (r : SwapRequest) (url : string) (p : QuoteParams) :
  In (HttpGet url p) (trace (swapTokenBebop isAddress w r)) ->
  exists v,
    Ethers.parseEther (str_of (amount r)) = Some v
    /\ sell_amounts p = Js.string_of_Z v.
Proof.
  intros Hin.
  run_cases isAddress w r; [destruct Hin|].
  destruct (Ethers.parseEther (str_of (amount r))) as [v|] eqn:Hv.
  - exists v. split; [reflexivity|].
    exits; cbn [trace fst In] in Hin;
      intuition (try discriminate); simplify_eq; reflexivity.
  - exfalso. exits; cbn [trace fst In] in Hin; intuition discriminate.
Qed.

(** X11.  On a supported chain a whole-number amount (digits only) makes the
    quote stage request exactly that many units of 10^18, printed in decimal,
    as long as that product is below 2^511, the range of the fixed-point
    format of [parseEther]; a larger number is refused before anything is
    requested. *)
Theorem whole_amount_quote_request (w : World) (addr : option string)
    (ft tt whole : string) (ch : Z) (g : bool) (k s : string) :
  In ch supported_chains ->
  Ethers.all_digits whole = true -> whole <> EmptyString ->
  exists name,
    getChainName ch = Ok name
    /\ (Ethers.digits_value 0 whole * 10 ^ 18 < 2 ^ 511 ->
        trace (getBebopQuote w addr ft tt whole ch g k s)
        = [HttpGet (quote_url name)
             (quote_params addr ft tt
                (Js.string_of_Z (Ethers.digits_value 0 whole * 10 ^ 18)) g)])
    /\ (2 ^ 511 <= Ethers.digits_value 0 whole * 10 ^ 18 ->
        getBebopQuote w addr ft tt whole ch g k s
        = ([], Throw (InvalidAmount whole))).
Proof.
  intros Hin Hw Hne.
  destruct (getChainName_supported ch Hin) as (name & Hname & _).
  exists name. split; [exact Hname|]. split; intros Hb.
  - rewrite getBebopQuote_unfold, Hname.
    unfold Ethers.parseEther.
    rewrite (AmountFacts.parseUnits_whole whole 18 Hw Hne Hb).
    cbv zeta. exits; reflexivity.
  - rewrite getBebopQuote_unfold, Hname.
    unfold Ethers.parseEther.
    rewrite (AmountFacts.parseUnits_whole_overflow whole 18 Hw Hne Hb).
    reflexivity.
Qed.

(** X12.  The script has no check on the sign of the amount: when an amount
    without sign converts to [v], the same amount with a minus sign in front
    makes the quote stage request the sell amount [-v]. *)
Theorem negative_amount_forwarded (w : World) (addr : option string)
    (ft tt amt : string) (v : Z) (ch : Z) (g : bool) (k s : string) :
  In ch supported_chains ->
  Ethers.skip_char "-" amt = (false, amt) ->
  Ethers.parseEther amt = Some v -> 0 <= v ->
  exists name,
    getChainName ch = Ok name
    /\ trace (getBebopQuote w addr ft tt ("-" +:+ amt) ch g k s)
       = [HttpGet (quote_url name)
            (quote_params addr ft tt (Js.string_of_Z (- v)) g)].
Proof.
  intros Hin Hs Hp Hv.
  destruct (getChainName_supported ch Hin) as (name & Hname & _).
  exists name. split; [exact Hname|].
  rewrite getBebopQuote_unfold, Hname.
  unfold Ethers.parseEther in *.
  rewrite (AmountFacts.parseUnits_negative amt 18 v Hs Hp Hv).
  cbv zeta. exits; reflexivity.
Qed.

(** X13.  An amount with a non-zero digit beyond the eighteenth decimal place
    is refused by the quote stage before anything is requested; it is not
    rounded or truncated. *)
Theorem excess_precision_refused (w : World) (addr : option string)
    (ft tt whole frac : string) (ch : Z) (g : bool) (k s : string) :
  In ch supported_chains ->
  Ethers.all_digits whole = true -> Ethers.all_digits frac = true ->
  Ethers.all_zeros (Ethers.drop_str 18 frac) = false ->
  getBebopQuote w addr ft tt (whole +:+ "." +:+ frac) ch g k s
  = ([], Throw (InvalidAmount (whole +:+ "." +:+ frac))).
Proof.
  intros Hin Hw Hf Hz.
  destruct (getChainName_supported ch Hin) as (name & Hname & _).
  rewrite getBebopQuote_unfold, Hname.
  unfold Ethers.parseEther.
  rewrite (AmountFacts.parseUnits_excess_precision whole frac 18 Hw Hf Hz).
  reflexivity.
Qed.

(** X14.  The sell amount sent for a non-negative amount is a string of
    decimal digits only (no sign, point or exponent), and read as a decimal
    integer it is the converted amount. *)
Theorem sell_amount_reads_back (isAddress : string -> bool) (w : World)
    (r : SwapRequest) (url : string) (p : QuoteParams) (amt : string) (v : Z) :
  In (HttpGet url p) (trace (swapTokenBebop isAddress w r)) ->
  amount r = Some amt ->
  Ethers.parseEther amt = Some v -> 0 <= v ->
  Ethers.all_digits (sell_amounts p) = true
  /\ Ethers.digits_value 0 (sell_amounts p) = v.
Proof.
  intros Hin Ha Hp Hv.
  destruct (quote_request_amount isAddress w r url p Hin) as (v' & Hp' & ->).
  rewrite Ha in Hp'. cbn [Js.or_default Js.truthy_str] in Hp'.
  destruct (negb (String.eqb amt EmptyString)) eqn:Hne.
  - assert (v' = v) as -> by congruence.
    apply AmountFacts.string_of_Z_digits, Hv.
  - apply negb_false_iff, String.eqb_eq in Hne. subst amt.
    discriminate Hp.
Qed.

(** X15.  Within the integers JavaScript represents exactly (magnitude below
    2^53), two different chain identifiers never get the same CAIP-2 name. *)
Theorem getCAIP2_injective (a b : Z) :
  - 2 ^ 53 < a < 2 ^ 53 -> - 2 ^ 53 < b < 2 ^ 53 ->
  a <> b -> getCAIP2 a <> getCAIP2 b.
Proof.
  unfold getCAIP2. intros _ _ Hne H. apply Hne.
  apply AmountFacts.string_of_Z_inj.
  exact (AmountFacts.append_inj_l "eip155:" _ _ H).
Qed.

(** ** Explorer links *)

Lemma explorers_unsupported (chainId : Z) :
  ~ In chainId supported_chains -> explorers !! chainId = None.
Proof.
  intros H. unfold explorers.
  repeat (rewrite lookup_insert_ne;
          [|intros <-; apply H; simpl; tauto]).
  apply lookup_empty.
Qed.

Lemma explorers_supported (chainId : Z) :
  In chainId supported_chains ->
  exists prefix,
    explorers !! chainId = Some prefix /\ prefix <> EmptyString.
Proof.
  intros Hin. simpl in Hin.
  destruct Hin as [<-|[<-|[<-|[<-|[<-|[<-|[]]]]]]];
    eexists; (split; [vm_compute; reflexivity|discriminate]).
Qed.

Lemma getExplorerUrl_supported (chainId : Z) (txHash : option string) :
  In chainId supported_chains ->
  exists prefix,
    explorers !! chainId = Some prefix
    /\ getExplorerUrl chainId txHash = prefix +:+ js_to_string txHash.
Proof.
  intros Hin.
  destruct (explorers_supported chainId Hin) as (prefix & Hp & Hne).
  exists prefix. split; [exact Hp|].
  unfold getExplorerUrl. rewrite Hp. cbn [Js.or_default Js.truthy_str].
  destruct (String.eqb_spec prefix EmptyString); [contradiction|].
  reflexivity.
Qed.

(** X16.  The explorer table has an entry for a chain exactly when the quote
    stage knows the chain; on such a chain the link is that entry followed by
    the hash, on any other chain it is the Ethereum explorer's address
    followed by the hash. *)
Theorem explorer_table_matches_chains (chainId : Z) (txHash : option string) :
  (In chainId supported_chains ->
   exists name prefix,
     getChainName chainId = Ok name
     /\ explorers !! chainId = Some prefix
     /\ getExplorerUrl chainId txHash = prefix +:+ js_to_string txHash)
  /\ (~ In chainId supported_chains ->
      getChainName chainId = Throw (UnsupportedChain chainId)
      /\ getExplorerUrl chainId txHash
         = "https://etherscan.io/tx/" +:+ js_to_string txHash).
Proof.
  split.
  - intros Hin.
    destruct (getChainName_supported chainId Hin) as (name & Hname & _).
    destruct (getExplorerUrl_supported chainId txHash Hin)
      as (prefix & Hp & Hurl).
    exists name, prefix. repeat split; assumption.
  - intros Hout. split; [apply getChainName_unsupported, Hout|].
    unfold getExplorerUrl. rewrite (explorers_unsupported _ Hout).
    reflexivity.
Qed.

(** X17.  The link shown after a completed swap is always taken from the
    explorer table for the request's chain; the fallback to the Ethereum
    explorer is never used there. *)
Theorem completed_run_explorer_link (isAddress : string -> bool) (w : World)
    (r : SwapRequest) (t : list Effect) (res : SwapResult) :
  swapTokenBebop isAddress w r = (t, Ok res) ->
  exists ch prefix,
    fromChain r = Some ch
    /\ explorers !! ch = Some prefix
    /\ getExplorerUrl ch (transactionHash res)
       = prefix +:+ js_to_string (transactionHash res).
Proof.
  intros Hrun.
  run_cases isAddress w r; [discriminate|].
  apply first_rejection_None in Heqo as (Hp & _).
  apply required_present_fields in Hp as (_ & _ & _ & _ & Hc).
  destruct (getChainName (chain_of (fromChain r))) as [name|e] eqn:Hname;
    [|exits; discriminate].
  assert (Hin : In (chain_of (fromChain r)) supported_chains).
  { destruct (in_dec Z.eq_dec (chain_of (fromChain r)) supported_chains)
      as [Hin|Hout]; [exact Hin|].
    rewrite (getChainName_unsupported _ Hout) in Hname. discriminate. }
  destruct (getExplorerUrl_supported (chain_of (fromChain r))
              (transactionHash res) Hin) as (prefix & Hp & Hurl).
  exists (chain_of (fromChain r)), prefix. repeat split; assumption.
Qed.

(** ** Hexadecimal values *)

Module HexFacts.
Import Ethers Hex.

Lemma hex_digit_value_digit (d : Z) :
  0 <= d < 16 -> hex_digit_value (hex_digit d) = d.
Proof.
  intros H.
  assert (Hd : d = 0 \/ d = 1 \/ d = 2 \/ d = 3 \/ d = 4 \/ d = 5 \/ d = 6
               \/ d = 7 \/ d = 8 \/ d = 9 \/ d = 10 \/ d = 11 \/ d = 12
               \/ d = 13 \/ d = 14 \/ d = 15) by lia.
  repeat (destruct Hd as [->|Hd]; [reflexivity|]). subst d. reflexivity.
Qed.

Lemma hex_value_app (acc : Z) (a b : string) :
  hex_value acc (a +:+ b) = hex_value (hex_value acc a) b.
Proof.
  revert acc. induction a as [|c a IH]; intros acc; [reflexivity|].
  change (String c a +:+ b) with (String c (a +:+ b)).
  cbn [hex_value]. apply IH.
Qed.

Lemma length_hex_word (n : nat) (v : Z) : String.length (hex_word n v) = n.
Proof.
  revert v. induction n as [|n IH]; intros v; [reflexivity|].
  cbn [hex_word]. rewrite EthersFacts.length_append, IH.
  cbn [String.length]. lia.
Qed.

(** Reading the [n] digits written for [v] gives [v] modulo [16^n]. *)
Lemma hex_value_word (n : nat) (acc v : Z) :
  hex_value acc (hex_word n v)
  = acc * 16 ^ Z.of_nat n + v mod 16 ^ Z.of_nat n.
Proof.
  revert v. induction n as [|n IH]; intros v.
  - cbn [hex_word hex_value]. change (16 ^ Z.of_nat 0) with 1.
    rewrite Z.mod_1_r. lia.
  - cbn [hex_word]. rewrite hex_value_app, IH. cbn [hex_value].
    rewrite hex_digit_value_digit by (apply Z.mod_pos_bound; lia).
    rewrite Nat2Z.inj_succ, Z.pow_succ_r by lia.
    rewrite (Z.rem_mul_r v 16 (16 ^ Z.of_nat n)) by
      (try lia; apply Z.pow_pos_nonneg; lia).
    ring.
Qed.

Lemma hex_length_bound (v : Z) :
  0 <= v -> v < 16 ^ Z.of_nat (hex_length v).
Proof.
  intros Hv. unfold hex_length.
  destruct (Z.eqb_spec v 0) as [->|Hne]; [reflexivity|].
  assert (Hpos : 0 < v) by lia.
  pose proof (Z.log2_nonneg v) as Hl.
  pose proof (Z.log2_spec v Hpos) as [_ Hup].
  rewrite Z2Nat.id by (pose proof (Z.div_pos (Z.log2 v) 4); lia).
  change 16 with (2 ^ 4). rewrite <- Z.pow_mul_r by
    (try lia; pose proof (Z.div_pos (Z.log2 v) 4); lia).
  eapply Z.lt_le_trans; [exact Hup|].
  apply Z.pow_le_mono_r; [lia|].
  pose proof (Z.div_mod (Z.log2 v) 4) as Hdm.
  pose proof (Z.mod_pos_bound (Z.log2 v) 4). lia.
Qed.

(** [toBeHex] writes [0x] and an even number of digits whose value is the
    integer. *)
Lemma toBeHex_value (v : Z) :
  0 <= v ->
  exists digits,
    toBeHex v = Some ("0x" +:+ digits)
    /\ hex_value 0 digits = v
    /\ Nat.even (String.length digits) = true.
Proof.
  intros Hv. unfold toBeHex.
  destruct (Z.ltb_spec v 0); [lia|].
  eexists. split; [reflexivity|]. split.
  - rewrite hex_value_word.
    rewrite Z.mod_small; [lia|]. split; [exact Hv|].
    eapply Z.lt_le_trans; [apply (hex_length_bound v Hv)|].
    apply Z.pow_le_mono_r; lia.
  - rewrite length_hex_word.
    destruct (Nat.Even_or_Odd (hex_length v)) as [[k Hk]|[k Hk]];
      rewrite Hk.
    + replace ((2 * k) mod 2)%nat with 0%nat
        by (symmetry; apply Nat.Div0.mod_divides; exists k; lia).
      rewrite Nat.add_0_r. apply Nat.even_spec. exists k. lia.
    + replace ((2 * k + 1) mod 2)%nat with 1%nat.
      * apply Nat.even_spec. exists (k + 1)%nat. lia.
      * rewrite Nat.add_comm, Nat.mul_comm, Nat.Div0.mod_add. reflexivity.
Qed.

Lemma toBeHex_negative (v : Z) : v < 0 -> toBeHex v = None.
Proof.
  intros Hv. unfold toBeHex. destruct (Z.ltb_spec v 0); [reflexivity|lia].
Qed.

End HexFacts.

(** ** The approval helper *)

(** X18.  [ensureTokenApproval] makes one custody call, an [approve] sent to
    the token with value zero whose call data names the settlement contract
    and the allowance 2^256 - 1, whatever amount and wallet address it was
    given.  It pauses three seconds only after the custody service accepted
    the call and then returns the hash; a rejection is passed on at once,
    without the pause. *)
Theorem approval_submission (w : World) (wid token amt : string) (ch : Z)
    (addr : option string) :
  let req := approval_request wid token ch in
  ensureTokenApproval w wid token amt ch addr
  = match walletApi_rpc w req with
    | Ok d => ([WalletRpc req; Sleep 3000], Ok (hash d))
    | Throw e => ([WalletRpc req], Throw e)
    end
  /\ tx_to (transaction req) = Some token
  /\ exists data,
       tx_data (transaction req) = Some data
       /\ Ethers.take_str 10 data = "0x095ea7b3"
       /\ Hex.hex_value 0 (Ethers.take_str 64 (Ethers.drop_str 10 data))
          = Hex.hex_value 0 (Ethers.drop_str 2 BEBOP_SETTLEMENT)
       /\ Hex.hex_value 0 (Ethers.drop_str 74 data) = 2 ^ 256 - 1.
Proof.
  cbv zeta. split; [|split; [reflexivity|]].
  - unfold ensureTokenApproval, bind, perform, ret.
    change {| rpc_walletId := wid; caip2 := getCAIP2 ch;
              method := "eth_sendTransaction";
              transaction :=
                {| tx_to := Some token;
                   tx_data := Some (Ethers.encodeApprove BEBOP_SETTLEMENT
                                      Ethers.MaxUint256);
                   tx_value := "0x0" |};
              sponsor := None |}
      with (approval_request wid token ch).
    destruct (walletApi_rpc w (approval_request wid token ch)); reflexivity.
  - eexists. split; [reflexivity|]. repeat split; vm_compute; reflexivity.
Qed.

(** ** The Sepolia withdrawal *)

Lemma valid_withdrawal_fields (isAddress : string -> bool)
    (r : WithdrawRequest) :
  valid_withdrawal isAddress r = true ->
  wd_walletId r = Some (str_of (wd_walletId r))
  /\ recipientAddress r = Some (str_of (recipientAddress r))
  /\ amountEth r = Some (str_of (amountEth r))
  /\ isAddress (str_of (recipientAddress r)) = true.
Proof.
  unfold valid_withdrawal. intros H.
  repeat (apply andb_prop in H as [H ?]).
  repeat split; try (apply or_default_truthy; assumption). assumption.
Qed.

(** [withdrawSepoliaETH], exit by exit. *)
Lemma withdrawSepoliaETH_unfold (isAddress : string -> bool) (w : World)
    (r : WithdrawRequest) :
  withdrawSepoliaETH isAddress w r =
  if valid_withdrawal isAddress r then
    match Ethers.parseEther (str_of (amountEth r)) with
    | None => ([], inl (WdInvalidAmount (str_of (amountEth r))))
    | Some wei =>
        match Hex.toBeHex wei with
        | None => ([], inl (NegativeValue wei))
        | Some amountWeiHex =>
            let req :=
              {| rpc_walletId := str_of (wd_walletId r);
                 caip2 := SEPOLIA;
                 method := "eth_sendTransaction";
                 transaction :=
                   {| tx_to := Some (str_of (recipientAddress r));
                      tx_data := None;
                      tx_value := amountWeiHex |};
                 sponsor := Some (Js.param_default false (sponsorGas r)) |} in
            ([WalletRpc req],
             match walletApi_rpc w req with
             | Ok data => inr data
             | Throw e => inl (CustodyRejected e)
             end)
        end
    end
  else
    ([], inl (if negb (Js.truthy_str (wd_walletId r)) then WdWalletIdRequired
              else if negb (Js.truthy_str (recipientAddress r))
                   then RecipientRequired
              else if negb (Js.truthy_str (amountEth r))
                   then AmountEthRequired
              else InvalidRecipient (str_of (recipientAddress r)))).
Proof.
  unfold withdrawSepoliaETH, valid_withdrawal.
  destruct (Js.truthy_str (wd_walletId r)); [|reflexivity].
  destruct (Js.truthy_str (recipientAddress r)); [|reflexivity].
  destruct (Js.truthy_str (amountEth r)); [|reflexivity].
  cbn [negb andb].
  destruct (isAddress (str_of (recipientAddress r))); [|reflexivity].
  cbn [negb].
  destruct (Ethers.parseEther (str_of (amountEth r))) as [wei|];
    [|reflexivity].
  destruct (Hex.toBeHex wei) as [h|]; [|reflexivity].
  cbv zeta. destruct (walletApi_rpc w _); reflexivity.
Qed.

(** X19.  A withdrawal that lacks the wallet identifier, the recipient or the
    amount, or whose recipient fails the address check, is rejected before
    anything is sent, with the error of the first failing check in the order
    wallet identifier, recipient, amount, address check. *)
Theorem withdrawal_invalid_rejected (isAddress : string -> bool) (w : World)
    (r : WithdrawRequest) :
  valid_withdrawal isAddress r = false ->
  exists e,
    withdrawSepoliaETH isAddress w r = ([], inl e)
    /\ is_withdraw_validation_error e = true
    /\ (Js.truthy_str (wd_walletId r) = false -> e = WdWalletIdRequired)
    /\ (Js.truthy_str (wd_walletId r) = true ->
        Js.truthy_str (recipientAddress r) = false -> e = RecipientRequired)
    /\ (Js.truthy_str (wd_walletId r) = true ->
        Js.truthy_str (recipientAddress r) = true ->
        Js.truthy_str (amountEth r) = false -> e = AmountEthRequired)
    /\ (Js.truthy_str (wd_walletId r) = true ->
        Js.truthy_str (recipientAddress r) = true ->
        Js.truthy_str (amountEth r) = true ->
        e = InvalidRecipient (str_of (recipientAddress r))).
Proof.
  intros Hv. rewrite withdrawSepoliaETH_unfold, Hv.
  eexists. split; [reflexivity|].
  destruct (Js.truthy_str (wd_walletId r));
    destruct (Js.truthy_str (recipientAddress r));
    destruct (Js.truthy_str (amountEth r));
    cbn [negb]; repeat split; intros; try discriminate; reflexivity.
Qed.


(** X21.  Whatever [withdrawSepoliaETH] submits is a Sepolia transfer of a
    non-negative amount to a well-formed recipient: an amount that does not
    convert, or converts to a negative value, never reaches the custody
    service. *)
Theorem withdrawal_only_nonnegative (isAddress : string -> bool) (w : World)
    (r : WithdrawRequest) (req : RpcRequest) :
  In (WalletRpc req) (fst (withdrawSepoliaETH isAddress w r)) ->
  exists v digits,
    Ethers.parseEther (str_of (amountEth r)) = Some v
    /\ 0 <= v
    /\ tx_value (transaction req) = "0x" +:+ digits
    /\ Hex.hex_value 0 digits = v
    /\ caip2 req = SEPOLIA
    /\ tx_to (transaction req) = recipientAddress r
    /\ isAddress (str_of (recipientAddress r)) = true.
Proof.
  intros Hin. rewrite withdrawSepoliaETH_unfold in Hin.
  destruct (valid_withdrawal isAddress r) eqn:Hv; [|destruct Hin].
  pose proof (valid_withdrawal_fields isAddress r Hv) as (_ & Ht & _ & Hok).
  destruct (Ethers.parseEther (str_of (amountEth r))) as [v|] eqn:Hp;
    [|destruct Hin].
  destruct (Z.lt_ge_cases v 0) as [Hneg|Hnn].
  { rewrite (HexFacts.toBeHex_negative v Hneg) in Hin. destruct Hin. }
  destruct (HexFacts.toBeHex_value v Hnn) as (digits & Hhex & Hval & _).
  rewrite Hhex in Hin. cbv zeta in Hin. cbn [fst In] in Hin.
  destruct Hin as [[= <-]|[]].
  exists v, digits. repeat split; try assumption. symmetry. exact Ht.
Qed.

(** ** The command line of the swap script *)

(** X22.  The exit code mirrors the swap: the process makes exactly the calls
    of [swapTokenBebop] on the request built from its arguments and exits
    with 0 when that run completes and with 1 when it throws.  The two tests
    made before the call (wallet identifier, the three positional arguments)
    change nothing: the validation block rejects the same inputs without a
    call. *)
Theorem cli_exit_mirrors_swap (isAddress : string -> bool)
    (parseInt : option string -> option Z) (w : World) (argv : list string) :
  cli_main isAddress parseInt w argv
  = (trace (swapTokenBebop isAddress w (cli_request parseInt w argv)),
     match result (swapTokenBebop isAddress w (cli_request parseInt w argv))
     with
     | Ok _ => 0
     | Throw _ => 1
     end).
Proof.
  unfold cli_main. set (r := cli_request parseInt w argv).
  rewrite swapTokenBebop_unfold. unfold first_rejection.
  destruct (Js.truthy_str (walletId r)); [|reflexivity].
  destruct (Js.truthy_str (fromToken r)); [|reflexivity].
  destruct (Js.truthy_str (toToken r)); [|reflexivity].
  destruct (Js.truthy_str (amount r)); [|reflexivity].
  cbn [negb orb].
  match goal with
  | |- context [match ?x with Some e => _ | None => _ end] => destruct x
  end; [reflexivity|].
  match goal with
  | |- context [pipeline ?a ?b ?c ?d ?e ?f ?g] =>
      destruct (pipeline a b c d e f g) as [t [res|err]]
  end; reflexivity.
Qed.

(** X23.  From the command line the destination chain is always the source
    chain, a non-zero number that is 8453 when the chain argument is absent,
    not a number or zero.  A run rejected before any call is therefore never
    rejected for its chains. *)
Theorem cli_chain_is_both_ends (isAddress : string -> bool)
    (parseInt : option string -> option Z) (w : World) (argv : list string)
    (e : SwapError) :
  swapTokenBebop isAddress w (cli_request parseInt w argv) = ([], Throw e) ->
  e <> SameChainOnly /\ e <> FromChainRequired
  /\ toChain (cli_request parseInt w argv)
     = fromChain (cli_request parseInt w argv)
  /\ cli_chainId parseInt argv <> 0
  /\ (parseInt (argv !! 5%nat) = None \/ parseInt (argv !! 5%nat) = Some 0 ->
      cli_chainId parseInt argv = 8453).
Proof.
  intros Hrun.
  assert (Hnz : cli_chainId parseInt argv <> 0).
  { unfold cli_chainId.
    destruct (parseInt (argv !! 5%nat)) as [n|]; [|lia].
    destruct (Z.eqb_spec n 0); lia. }
  assert (Hdef : parseInt (argv !! 5%nat) = None
                 \/ parseInt (argv !! 5%nat) = Some 0 ->
                 cli_chainId parseInt argv = 8453).
  { unfold cli_chainId. intros [->| ->]; reflexivity. }
  repeat split; try assumption.
  - intros ->. revert Hrun.
    rewrite swapTokenBebop_unfold. unfold first_rejection.
    cbn [cli_request walletId fromToken toToken amount fromChain toChain].
    rewrite bool_decide_eq_true_2 by reflexivity.
    cbn [Js.truthy_num]. rewrite andb_false_r.
    destruct (Z.eqb_spec (cli_chainId parseInt argv) 0); [contradiction|].
    cbn [negb].
    repeat match goal with
           | |- context [if ?b then _ else _] => destruct b
           end; try discriminate.
    rewrite pipeline_unfold. cbv zeta. exits; discriminate.
  - intros ->. revert Hrun.
    rewrite swapTokenBebop_unfold. unfold first_rejection.
    cbn [cli_request walletId fromToken toToken amount fromChain toChain].
    rewrite bool_decide_eq_true_2 by reflexivity.
    cbn [Js.truthy_num]. rewrite andb_false_r.
    destruct (Z.eqb_spec (cli_chainId parseInt argv) 0); [contradiction|].
    cbn [negb].
    repeat match goal with
           | |- context [if ?b then _ else _] => destruct b
           end; try discriminate.
    rewrite pipeline_unfold. cbv zeta. exits; discriminate.
Qed.

(** ** The configuration check *)


(** ** The further properties at concrete inputs *)

(** X1 at the scenario request and at a request without buy token. *)
Lemma validation_decides_first_call_witness :
  (exists wid rest,
     walletId Scenario.request = Some wid
     /\ trace (swapTokenBebop Scenario.address_shape Scenario.mock
                 Scenario.request) = WalletsGet wid :: rest)
  /\ (exists e,
        swapTokenBebop Scenario.address_shape Scenario.mock Cases.no_buy_token
        = ([], Throw e)
        /\ is_validation_error e = true).
Proof.
  split.
  - apply (proj1 (validation_decides_first_call Scenario.address_shape
                    Scenario.mock Scenario.request)).
    vm_compute. reflexivity.
  - apply (proj2 (validation_decides_first_call Scenario.address_shape
                    Scenario.mock Cases.no_buy_token)).
    vm_compute. reflexivity.
Defined.

(** X3 against a custody service that does not know the wallet. *)
Lemma lookup_failure_propagates_witness :
  swapTokenBebop Scenario.address_shape Cases.mock_no_wallet Scenario.request
  = ([WalletsGet "w1"], Throw (Rejected Custody "wallet not found")).
Proof.
  apply (lookup_failure_propagates Scenario.address_shape Cases.mock_no_wallet
           Scenario.request "w1").
  - vm_compute. reflexivity.
  - reflexivity.
  - reflexivity.
Defined.

(** X4 against a venue that answers with status 500. *)
Lemma venue_rejection_propagates_witness :
  swapTokenBebop Scenario.address_shape Cases.mock_venue_down Scenario.request
  = ([WalletsGet "w1";
      HttpGet Instances.base_url
        (Scenario.quote_params "1000000000000000000" false)],
     Throw (Rejected Venue "Request failed with status code 500")).
Proof.
  apply (venue_rejection_propagates Scenario.address_shape
           Cases.mock_venue_down Scenario.request Instances.base_url
           (Scenario.quote_params "1000000000000000000" false)).
  - vm_compute. right. left. reflexivity.
  - reflexivity.
Defined.

(** X5 against a custody service that rejects the settlement. *)
Lemma submission_failure_propagates_witness :
  exists url p,
    swapTokenBebop Scenario.address_shape Cases.mock_submission_rejected
      Scenario.request
    = ([WalletsGet "w1"; HttpGet url p; WalletRpc Scenario.settlement],
       Throw (Rejected Custody "insufficient funds")).
Proof.
  apply (submission_failure_propagates Scenario.address_shape
           Cases.mock_submission_rejected Scenario.request
           Scenario.settlement).
  - vm_compute. right. right. left. reflexivity.
  - reflexivity.
Defined.

(** X6 at the scenario request on Goerli. *)
Lemma unsupported_chain_after_lookup_witness :
  swapTokenBebop Scenario.address_shape Scenario.mock Cases.on_goerli
  = ([WalletsGet "w1"], Throw (UnsupportedChain 5)).
Proof.
  apply (unsupported_chain_after_lookup Scenario.address_shape Scenario.mock
           Cases.on_goerli "w1" 5 {| address := Some Scenario.taker |}).
  - vm_compute. reflexivity.
  - reflexivity.
  - reflexivity.
  - reflexivity.
  - simpl. lia.
Defined.

(** X7 at the amount [1e18]. *)
Lemma unparseable_amount_after_lookup_witness :
  swapTokenBebop Scenario.address_shape Scenario.mock Cases.exponent_amount
  = ([WalletsGet "w1"], Throw (InvalidAmount "1e18")).
Proof.
  apply (unparseable_amount_after_lookup Scenario.address_shape Scenario.mock
           Cases.exponent_amount "w1" "1e18" 8453
           {| address := Some Scenario.taker |}).
  - vm_compute. reflexivity.
  - reflexivity.
  - reflexivity.
  - reflexivity.
  - reflexivity.
  - simpl. lia.
  - vm_compute. reflexivity.
Defined.

(** X8 against a venue that prepares no transaction. *)
Lemma reply_without_transaction_not_submitted_witness :
  rpc_calls (trace (swapTokenBebop Scenario.address_shape
                      Cases.mock_no_transaction Scenario.request)) = []
  /\ exists e,
       result (swapTokenBebop Scenario.address_shape
                 Cases.mock_no_transaction Scenario.request) = Throw e.
Proof.
  apply (reply_without_transaction_not_submitted Scenario.address_shape
           Cases.mock_no_transaction Scenario.request Instances.base_url
           (Scenario.quote_params "1000000000000000000" false)
           Cases.no_transaction_reply).
  - vm_compute. right. left. reflexivity.
  - reflexivity.
  - reflexivity.
Defined.

(** X9 at the end-to-end scenario. *)
Lemma completed_run_makes_three_calls_witness :
  exists wid ft tt ch wal url p req,
    walletId Scenario.request = Some wid
    /\ fromToken Scenario.request = Some ft
    /\ toToken Scenario.request = Some tt
    /\ fromChain Scenario.request = Some ch
    /\ Instances.scenario_trace
       = [WalletsGet wid; HttpGet url p; WalletRpc req]
    /\ wallets_get Scenario.mock wid = Ok wal
    /\ taker_address p = address wal
    /\ sell_tokens p = ft /\ buy_tokens p = tt
    /\ rpc_walletId req = wid /\ caip2 req = getCAIP2 ch.
Proof.
  apply (completed_run_makes_three_calls Scenario.address_shape Scenario.mock
           Scenario.request Instances.scenario_trace
           Instances.scenario_result).
  vm_compute. reflexivity.
Defined.

(** X10 at a request that names Base as source and destination. *)
Lemma accepted_destination_chain_unused_witness :
  swapTokenBebop Scenario.address_shape Scenario.mock
    (with_toChain None Scenario.sell_usdc)
  = swapTokenBebop Scenario.address_shape Scenario.mock Scenario.sell_usdc.
Proof.
  apply (accepted_destination_chain_unused Scenario.address_shape
           Scenario.mock Scenario.sell_usdc).
  vm_compute. reflexivity.
Defined.

(** X11 at the amount [25] on Base, and at one of 137 digits. *)
Lemma whole_amount_quote_request_witness :
  (exists name,
     getChainName 8453 = Ok name
     /\ trace (getBebopQuote Scenario.mock None Scenario.WETH Scenario.USDC
                 "25" 8453 false EmptyString EmptyString)
        = [HttpGet (quote_url name)
             (quote_params None Scenario.WETH Scenario.USDC
                (Js.string_of_Z (Ethers.digits_value 0 "25" * 10 ^ 18))
                false)])
  /\ getBebopQuote Scenario.mock None Scenario.WETH Scenario.USDC
       Cases.huge_amount 8453 false EmptyString EmptyString
     = ([], Throw (InvalidAmount Cases.huge_amount)).
Proof.
  split.
  - destruct (whole_amount_quote_request Scenario.mock None Scenario.WETH
                Scenario.USDC "25" 8453 false EmptyString EmptyString)
      as (name & Hname & Hsmall & _).
    + simpl. lia.
    + reflexivity.
    + discriminate.
    + exists name. split; [exact Hname|].
      apply Hsmall. vm_compute. reflexivity.
  - destruct (whole_amount_quote_request Scenario.mock None Scenario.WETH
                Scenario.USDC Cases.huge_amount 8453 false EmptyString
                EmptyString)
      as (name & _ & _ & Hlarge).
    + simpl. lia.
    + vm_compute. reflexivity.
    + discriminate.
    + apply Hlarge. vm_compute. discriminate.
Defined.

(** X12 at the amount [-1.5] on Base. *)
Lemma negative_amount_forwarded_witness :
  exists name,
    getChainName 8453 = Ok name
    /\ trace (getBebopQuote Scenario.mock None Scenario.WETH Scenario.USDC
                ("-" +:+ "1.5") 8453 false EmptyString EmptyString)
       = [HttpGet (quote_url name)
            (quote_params None Scenario.WETH Scenario.USDC
               (Js.string_of_Z (- 1500000000000000000)) false)].
Proof.
  apply (negative_amount_forwarded Scenario.mock None Scenario.WETH
           Scenario.USDC "1.5" 1500000000000000000 8453 false EmptyString
           EmptyString).
  - simpl. lia.
  - reflexivity.
  - vm_compute. reflexivity.
  - lia.
Defined.

(** X13 at an amount with nineteen decimal places. *)
Lemma excess_precision_refused_witness :
  getBebopQuote Scenario.mock None Scenario.WETH Scenario.USDC
    ("1" +:+ "." +:+ "0000000000000000001") 8453 false EmptyString EmptyString
  = ([], Throw (InvalidAmount ("1" +:+ "." +:+ "0000000000000000001"))).
Proof.
  apply (excess_precision_refused Scenario.mock None Scenario.WETH
           Scenario.USDC "1" "0000000000000000001" 8453 false EmptyString
           EmptyString).
  - simpl. lia.
  - reflexivity.
  - reflexivity.
  - reflexivity.
Defined.

(** X14 at the end-to-end scenario. *)
Lemma sell_amount_reads_back_witness :
  Ethers.all_digits
    (sell_amounts (Scenario.quote_params "1000000000000000000" false)) = true
  /\ Ethers.digits_value 0
       (sell_amounts (Scenario.quote_params "1000000000000000000" false))
     = 1000000000000000000.
Proof.
  apply (sell_amount_reads_back Scenario.address_shape Scenario.mock
           Scenario.request Instances.base_url
           (Scenario.quote_params "1000000000000000000" false) "1"
           1000000000000000000).
  - vm_compute. right. left. reflexivity.
  - reflexivity.
  - vm_compute. reflexivity.
  - lia.
Defined.

(** X15 at Base and Base Sepolia, whose identifiers share four digits. *)
Lemma getCAIP2_injective_witness :
  getCAIP2 8453 = "eip155:8453" /\ getCAIP2 84532 = "eip155:84532"
  /\ getCAIP2 8453 <> getCAIP2 84532.
Proof.
  split; [reflexivity|]. split; [reflexivity|].
  apply (getCAIP2_injective 8453 84532); lia.
Defined.

(** X16 at Base and at Goerli. *)
Lemma explorer_table_matches_chains_witness :
  (exists name prefix,
     getChainName 8453 = Ok name
     /\ explorers !! 8453 = Some prefix
     /\ getExplorerUrl 8453 (Some "0xabc") = prefix +:+ js_to_string (Some "0xabc"))
  /\ getExplorerUrl 5 (Some "0xabc")
     = "https://etherscan.io/tx/" +:+ js_to_string (Some "0xabc").
Proof.
  split.
  - apply (proj1 (explorer_table_matches_chains 8453 (Some "0xabc"))).
    simpl. lia.
  - apply (proj2 (explorer_table_matches_chains 5 (Some "0xabc"))).
    simpl. lia.
Defined.

(** X17 at the end-to-end scenario. *)
Lemma completed_run_explorer_link_witness :
  exists ch prefix,
    fromChain Scenario.request = Some ch
    /\ explorers !! ch = Some prefix
    /\ getExplorerUrl ch (transactionHash Instances.scenario_result)
       = prefix +:+ js_to_string (transactionHash Instances.scenario_result).
Proof.
  apply (completed_run_explorer_link Scenario.address_shape Scenario.mock
           Scenario.request Instances.scenario_trace
           Instances.scenario_result).
  vm_compute. reflexivity.
Defined.

(** X19 at a withdrawal without recipient. *)
Lemma withdrawal_invalid_rejected_witness :
  valid_withdrawal Scenario.address_shape Cases.withdrawal_no_recipient = false
  /\ withdrawSepoliaETH Scenario.address_shape Scenario.mock
       Cases.withdrawal_no_recipient = ([], inl RecipientRequired).
Proof.
  assert (Hv : valid_withdrawal Scenario.address_shape
                 Cases.withdrawal_no_recipient = false) by reflexivity.
  split; [exact Hv|].
  destruct (withdrawal_invalid_rejected Scenario.address_shape Scenario.mock
              Cases.withdrawal_no_recipient Hv)
    as (e & Hrun & _ & _ & Hrec & _).
  rewrite Hrun, (Hrec eq_refl eq_refl). reflexivity.
Defined.


(** X21 at the same withdrawal. *)
Lemma withdrawal_only_nonnegative_witness :
  exists v digits,
    Ethers.parseEther (str_of (amountEth Cases.withdrawal)) = Some v
    /\ 0 <= v
    /\ tx_value (transaction Cases.withdrawal_call) = "0x" +:+ digits
    /\ Hex.hex_value 0 digits = v
    /\ caip2 Cases.withdrawal_call = SEPOLIA
    /\ tx_to (transaction Cases.withdrawal_call)
       = recipientAddress Cases.withdrawal
    /\ Scenario.address_shape (str_of (recipientAddress Cases.withdrawal))
       = true.
Proof.
  apply (withdrawal_only_nonnegative Scenario.address_shape Scenario.mock
           Cases.withdrawal Cases.withdrawal_call).
  vm_compute. left. reflexivity.
Defined.

(** X23 at a command line without tokens and without wallet identifier. *)
Lemma cli_chain_is_both_ends_witness :
  WalletIdRequired <> SameChainOnly
  /\ cli_chainId Cases.parse_digits Cases.argv_no_tokens = 8453.
Proof.
  destruct (cli_chain_is_both_ends Scenario.address_shape Cases.parse_digits
              Scenario.mock Cases.argv_no_tokens WalletIdRequired)
    as (Hne & _ & _ & _ & Hdef).
  - vm_compute. reflexivity.
  - split; [exact Hne|]. apply Hdef. left. reflexivity.
Defined.

